(** * build.py: the PhantomJS build driver, embedded and verified

    The script turns a parsed command line (an [argparse] namespace) into a
    sequence of external tool invocations.  The embedding below follows
    [build.py] function by function.  Everything the script does to the
    outside world is recorded as an [Event] in a trace; the host (platform,
    environment, file system, child processes) is an interface [Host] whose
    answers may change as child processes run. *)

From Stdlib Require Import Bool List ZArith Lia Ascii String.
From Stdlib Require DecimalString.
Import ListNotations.
Local Open Scope string_scope.
Local Open Scope list_scope.

(** ** Python strings *)

(** A string is a Python 3 [str] whose code points are below 256, one
    [ascii] for each; the character classes below are those of Python 3
    on that range. *)
Module Py.

Definition nl : string := String "010" EmptyString.
Definition dquote : string := String "034" EmptyString.
Definition backslash : string := String "092" EmptyString.

(** [sep.join(l)] *)
Definition join (sep : string) (l : list string) : string := String.concat sep l.

(** [s.split(sep)] for a one-character separator: every occurrence of the
    separator cuts, empty fields are kept, the result is never empty. *)
Fixpoint split (sep : ascii) (s : string) : list string :=
  match s with
  | EmptyString => [EmptyString]
  | String c r =>
      if Ascii.eqb c sep then EmptyString :: split sep r
      else match split sep r with
           | [] => [String c EmptyString]
           | w :: ws => String c w :: ws
           end
  end.

(** [s.replace(a, b)] for a one-character [a]. *)
Fixpoint replace (a : ascii) (b : string) (s : string) : string :=
  match s with
  | EmptyString => EmptyString
  | String c r => if Ascii.eqb c a then b ++ replace a b r else String c (replace a b r)
  end.

(** White space of [str.strip()] and of [\s] in a [str] pattern: \t, \n,
    \v, \f, \r, the four separators 0x1C to 0x1F, the space, NEL (0x85) and
    the no-break space (0xA0). *)
Definition isspace (c : ascii) : bool :=
  let n := nat_of_ascii c in
  (Nat.leb 9 n && Nat.leb n 13) || (Nat.leb 28 n && Nat.leb n 32)
  || Nat.eqb n 133 || Nat.eqb n 160.

Definition isdigit (c : ascii) : bool :=
  let n := nat_of_ascii c in Nat.leb 48 n && Nat.leb n 57.

Fixpoint lstrip (s : string) : string :=
  match s with
  | String c r => if isspace c then lstrip r else s
  | EmptyString => EmptyString
  end.

Definition reverse (s : string) : string :=
  string_of_list_ascii (rev (list_ascii_of_string s)).

(** [s.strip()] *)
Definition strip (s : string) : string := reverse (lstrip (reverse (lstrip s))).

(** [s.lower()]: the letters A to Z, and the capital letters of Latin-1
    (0xC0 to 0xDE but for the multiplication sign 0xD7), move up by 32. *)
Definition lower_char (c : ascii) : ascii :=
  let n := nat_of_ascii c in
  if (Nat.leb 65 n && Nat.leb n 90)
     || (Nat.leb 192 n && Nat.leb n 222 && negb (Nat.eqb n 215))
  then ascii_of_nat (n + 32) else c.

Fixpoint lower (s : string) : string :=
  match s with
  | EmptyString => EmptyString
  | String c r => String (lower_char c) (lower r)
  end.

(** A command element: the script mixes strings and integers in one list
    ([["-j", multiprocessing.cpu_count()]]) and converts with [str] when the
    command is executed. *)
Inductive value : Type :=
| Str (s : string)
| Int (z : Z).

(** [str(v)] *)
Definition str (v : value) : string :=
  match v with
  | Str s => s
  | Int z => DecimalString.NilZero.string_of_int (Z.to_int z)
  end.

(** Truth value of an optional list ([None] and [[]] are false). *)
Definition truthy_list {A} (l : option (list A)) : bool :=
  match l with
  | Some (_ :: _) => true
  | _ => false
  end.

(** Truth value of an optional integer ([None] and [0] are false). *)
Definition truthy_int (n : option Z) : bool :=
  match n with
  | Some z => negb (Z.eqb z 0)
  | None => false
  end.

(** The elements of an optional list, for [list.extend]. *)
Definition elems {A} (l : option (list A)) : list A :=
  match l with Some x => x | None => [] end.

(** [posixpath.join(a, b)] *)
Definition posix_join (a b : string) : string :=
  match b with
  | String "/" _ => b
  | _ =>
      match reverse a with
      | EmptyString => b
      | String "/" _ => (a ++ b)%string
      | _ => (a ++ "/" ++ b)%string
      end
  end.

(** [shlex.split(s)] (POSIX mode, no comments): words are separated by
    the characters of [shlex.whitespace], which are the space, \t, \r and
    \n only; single quotes keep everything; inside double quotes a
    backslash escapes a double quote or a backslash; outside quotes a
    backslash escapes the next character.  [None] is [ValueError] (no
    closing quotation, no escaped character).  [word] is the current word,
    reversed, when one has been started. *)
Inductive shlex_mode : Type := Plain | Single | Double.

Definition shlex_whitespace (c : ascii) : bool :=
  Ascii.eqb c " " || Ascii.eqb c "009" || Ascii.eqb c "013" || Ascii.eqb c "010".

Definition shlex_emit (word : option (list ascii)) (rest : list string) : list string :=
  match word with
  | Some w => string_of_list_ascii (rev w) :: rest
  | None => rest
  end.

Definition shlex_add (c : ascii) (word : option (list ascii)) : option (list ascii) :=
  match word with
  | Some w => Some (c :: w)
  | None => Some [c]
  end.

Definition shlex_open (word : option (list ascii)) : option (list ascii) :=
  match word with
  | Some w => Some w
  | None => Some []
  end.

Fixpoint shlex (mode : shlex_mode) (word : option (list ascii)) (s : string)
    : option (list string) :=
  match mode, s with
  | Plain, EmptyString => Some (shlex_emit word [])
  | _, EmptyString => None
  | Plain, String c r =>
      if shlex_whitespace c then option_map (shlex_emit word) (shlex Plain None r)
      else if Ascii.eqb c "'" then shlex Single (shlex_open word) r
      else if Ascii.eqb c "034" then shlex Double (shlex_open word) r
      else if Ascii.eqb c "092" then
        match r with
        | EmptyString => None
        | String d r' => shlex Plain (shlex_add d word) r'
        end
      else shlex Plain (shlex_add c word) r
  | Single, String c r =>
      if Ascii.eqb c "'" then shlex Plain word r
      else shlex Single (shlex_add c word) r
  | Double, String c r =>
      if Ascii.eqb c "034" then shlex Plain word r
      else if Ascii.eqb c "092" then
        match r with
        | EmptyString => None
        | String d r' =>
            if Ascii.eqb d "034" || Ascii.eqb d "092"
            then shlex Double (shlex_add d word) r'
            else shlex Double (shlex_add d (shlex_add c word)) r'
        end
      else shlex Double (shlex_add c word) r
  end.

Definition shlex_split (s : string) : option (list string) := shlex Plain None s.

End Py.

(** ** Regular expressions, as far as [re.match] is used *)

Module Re.

Inductive regex : Type :=
| Eps
| Void
| Cls (p : ascii -> bool)
| Seq (r1 r2 : regex)
| Alt (r1 r2 : regex)
| Star (r : regex).

Definition Chr (c : ascii) : regex := Cls (Ascii.eqb c).
Definition Plus (r : regex) : regex := Seq r (Star r).

Fixpoint nullable (r : regex) : bool :=
  match r with
  | Eps => true
  | Void => false
  | Cls _ => false
  | Seq r1 r2 => nullable r1 && nullable r2
  | Alt r1 r2 => nullable r1 || nullable r2
  | Star _ => true
  end.

(** Brzozowski derivative. *)
Fixpoint deriv (c : ascii) (r : regex) : regex :=
  match r with
  | Eps => Void
  | Void => Void
  | Cls p => if p c then Eps else Void
  | Seq r1 r2 =>
      if nullable r1 then Alt (Seq (deriv c r1) r2) (deriv c r2)
      else Seq (deriv c r1) r2
  | Alt r1 r2 => Alt (deriv c r1) (deriv c r2)
  | Star r1 => Seq (deriv c r1) (Star r1)
  end.

(** [re.match(r, s)] is not [None]: some prefix of [s] matches [r]. *)
Fixpoint matches (r : regex) (s : string) : bool :=
  nullable r ||
  match s with
  | EmptyString => false
  | String c s' => matches (deriv c r) s'
  end.

(** The pattern [-j\s*[0-9]+] of [PhantomJSBuilder.__init__]. *)
Definition jobs_pattern : regex :=
  Seq (Chr "-") (Seq (Chr "j") (Seq (Star (Cls Py.isspace)) (Plus (Cls Py.isdigit)))).

End Re.

(** ** Options, events, exceptions *)

(** The namespace built by [parser.parse_args()]: one field per argument,
    named by its [dest].  [store_true] arguments are booleans; [--jobs] is
    an optional integer; arguments with [action="append"] are [None] or the
    list of the values given. *)
Record Options : Type := mkOptions {
  release : bool;
  debug : bool;
  jobs : option Z;
  confirm : bool;
  dry_run : bool;
  silent : bool;
  qmake_args : option (list string);
  webkit_qmake_args : option (list string);
  phantomjs_qmake_args : option (list string);
  qt_config : option (list string);
  git_clean_qtbase : bool;
  git_clean_qtwebkit : bool;
  skip_qtbase : bool;
  skip_configure_qtbase : bool;
  skip_qtwebkit : bool;
  skip_configure_qtwebkit : bool;
  skip_git : bool;
  disable_touch_events : bool
}.

(** [options.skip_git = v] *)
Definition set_skip_git (v : bool) (o : Options) : Options :=
  mkOptions (release o) (debug o) (jobs o) (confirm o) (dry_run o) (silent o)
    (qmake_args o) (webkit_qmake_args o) (phantomjs_qmake_args o) (qt_config o)
    (git_clean_qtbase o) (git_clean_qtwebkit o) (skip_qtbase o)
    (skip_configure_qtbase o) (skip_qtwebkit o) (skip_configure_qtwebkit o)
    v (disable_touch_events o).

(** [options.qt_config = v] (used to compare runs that differ in the user's
    configure flags only) *)
Definition set_qt_config (v : option (list string)) (o : Options) : Options :=
  mkOptions (release o) (debug o) (jobs o) (confirm o) (dry_run o) (silent o)
    (qmake_args o) (webkit_qmake_args o) (phantomjs_qmake_args o) v
    (git_clean_qtbase o) (git_clean_qtwebkit o) (skip_qtbase o)
    (skip_configure_qtbase o) (skip_qtwebkit o) (skip_configure_qtwebkit o)
    (skip_git o) (disable_touch_events o).

(** What a run does to the outside world, in order. *)
Inductive Event : Type :=
| Print (text : string)                            (* print(text) *)
| StdoutWrite (text : string)                      (* sys.stdout.write(text) *)
| StderrWrite (text : string)                      (* sys.stderr.write(text) *)
| Echo (workingDirectory : string) (command : list string)
    (* print("Executing in %s: %s" % (workingDirectory, " ".join(command))) *)
| Popen (command : list string) (cwd : string)     (* subprocess.Popen(command, cwd=cwd) and wait() *)
| ShellCall (command : string)                     (* subprocess.call(command, shell=True) *)
| Putenv (name value : string)                     (* os.putenv(name, value) *)
| PathExists (path : string).                      (* os.path.exists(path) *)

(** The other file tests ([os.path.isfile], [os.access], [os.path.isdir])
    are answered by the host without a trace. *)

Inductive Exception : Type :=
| RuntimeError (msg : string)
| KeyError (key : string)
| UnboundLocalError (name : string)
| ValueError
| OSError
| SystemExit (code : Z).

Inductive Outcome (A : Type) : Type :=
| Return (a : A)
| Raise (e : Exception).
Arguments Return {A} a.
Arguments Raise {A} e.

(** A child process was started: by [Popen] or through the shell. *)
Definition is_spawn (e : Event) : bool :=
  match e with
  | Popen _ _ | ShellCall _ => true
  | _ => false
  end.

(** A command preview was printed. *)
Definition is_echo (e : Event) : bool :=
  match e with
  | Echo _ _ => true
  | _ => false
  end.

(** An external command was previewed or started. *)
Definition is_invocation (e : Event) : bool := is_echo e || is_spawn e.

(** The program of a previewed or started argument-list command. *)
Definition program_of (e : Event) : option string :=
  match e with
  | Echo _ (p :: _) | Popen (p :: _) _ => Some p
  | _ => None
  end.

Definition runs_program (p : string) (e : Event) : bool :=
  match program_of e with
  | Some q => String.eqb p q
  | None => false
  end.

(** The exit status of the interpreter for the outcome of [main]. *)
Definition exit_status (r : Outcome unit) : Z :=
  match r with
  | Return _ => 0
  | Raise (SystemExit code) => code
  | Raise _ => 1
  end.

(** ** Module-level data of build.py *)

Definition third_party_names : list string := ["libicu"; "libxml"; "openssl"; "zlib"].

Definition qt_compile_defs : list string := [
    "QT_NO_GRAPHICSVIEW";
    "QT_NO_GRAPHICSEFFECT";
    "QT_NO_STYLESHEET";
    "QT_NO_STYLE_CDE";
    "QT_NO_STYLE_CLEANLOOKS";
    "QT_NO_STYLE_MOTIF";
    "QT_NO_STYLE_PLASTIQUE";
    "QT_NO_PRINTPREVIEWDIALOG"
].

Record SearchPath : Type := mkSearchPath {
  name : string;
  header : string;
  flags : list string
}.

Definition openssl_search_paths : list SearchPath := [
  mkSearchPath "Brew" "/usr/local/opt/openssl/include/openssl/opensslv.h"
    ["-I/usr/local/opt/openssl/include"; "-L/usr/local/opt/openssl/lib"];
  mkSearchPath "MacPorts" "/opt/local/include/openssl/opensslv.h"
    ["-I/opt/local/include"; "-L/opt/local/lib"]
].

(** The builder object: [self.options] is the shared namespace object (kept
    in the state, see below), [self.makeCommand] is set by [__init__]. *)
Record PhantomJSBuilder : Type := mkBuilder {
  makeCommand : list Py.value
}.

(** ** The host and the monad of the script *)

Section Script.

(** The state of the file system and of everything else child processes
    can change. *)
Context {W : Type}.

Record Host : Type := mkHost {
  system : string;                            (* platform.system() *)
  root : string;                              (* the directory of build.py *)
  cpu_count : Z;                              (* multiprocessing.cpu_count() *)
  environ : string -> option string;          (* os.environ *)
  pathsep : ascii;                            (* os.pathsep *)
  path_join : string -> string -> string;     (* os.path.join *)
  abspath : string -> string;                 (* os.path.abspath, after main's chdir *)
  shlex_split : string -> option (list string); (* shlex.split; None: ValueError *)
  isfile : W -> string -> bool;               (* os.path.isfile *)
  access_X_OK : W -> string -> bool;          (* os.access(_, os.X_OK) *)
  path_exists : W -> string -> bool;          (* os.path.exists *)
  isdir : W -> string -> bool;                (* os.path.isdir *)
  popen_wait : list string -> string -> W -> W * option Z;
    (* Popen(command, cwd) then wait(): the return code; None: OSError *)
  shell_call : string -> W -> W;              (* subprocess.call(_, shell=True) *)
  putenv : string -> string -> W -> W         (* os.putenv *)
}.

Variable os : Host.

(** The mutable state of a run: the world, the lines still to be read
    from standard input, and the namespace object that [options] in
    [main] and [self.options] in the builder both refer to. *)
Record State : Type := mkState {
  world : W;
  stdin : list string;
  options : Options
}.

(** A computation: from a state to the events emitted, the new state, and
    a value or an exception. *)
Definition M (A : Type) : Type := State -> list Event * State * Outcome A.

Definition ret {A} (a : A) : M A := fun s => ([], s, Return a).

Definition raise {A} (e : Exception) : M A := fun s => ([], s, Raise e).

Definition bind {A B} (m : M A) (k : A -> M B) : M B :=
  fun s =>
    match m s with
    | (t1, s1, Return a) =>
        match k a s1 with
        | (t2, s2, r) => (t1 ++ t2, s2, r)
        end
    | (t1, s1, Raise e) => (t1, s1, Raise e)
    end.

Definition tell (e : Event) : M unit := fun s => ([e], s, Return tt).

Definition get_options : M Options := fun s => ([], s, Return (options s)).

Definition with_options (f : Options -> Options) (s : State) : State :=
  mkState (world s) (stdin s) (f (options s)).

Definition modify_options (f : Options -> Options) : M unit :=
  fun s => ([], with_options f s, Return tt).

Definition ask {A} (q : W -> A) : M A := fun s => ([], s, Return (q (world s))).

Definition events {A} (x : list Event * State * Outcome A) : list Event := fst (fst x).
Definition final {A} (x : list Event * State * Outcome A) : State := snd (fst x).
Definition outcome {A} (x : list Event * State * Outcome A) : Outcome A := snd x.

Local Notation "x <- m ;; k" := (bind m (fun x => k))
  (at level 100, m at next level, right associativity).
Local Notation "m ;;; k" := (bind m (fun _ => k))
  (at level 100, right associativity).

Definition print (text : string) : M unit := tell (Print text).

(** [os.getenv(name, default)] *)
Definition getenv (name default : string) : string :=
  match environ os name with
  | Some v => v
  | None => default
  end.

(** [os.path.exists(path)], recorded in the trace. *)
Definition exists_ (path : string) : M bool :=
  tell (PathExists path);;; ask (fun w => path_exists os w path).

(** [subprocess.Popen(command, ..., cwd); process.wait(); process.returncode] *)
Definition Popen_wait (command : list string) (cwd : string) : M Z :=
  fun s =>
    match popen_wait os command cwd (world s) with
    | (w, Some returncode) =>
        ([Popen command cwd], mkState w (stdin s) (options s), Return returncode)
    | (w, None) =>
        ([Popen command cwd], mkState w (stdin s) (options s), Raise OSError)
    end.

(** [subprocess.call(" ".join(command), shell=True)]; the result is dropped. *)
Definition subprocess_call_shell (command : list string) : M unit :=
  fun s =>
    let line := Py.join " " command in
    ([ShellCall line], mkState (shell_call os line (world s)) (stdin s) (options s), Return tt).

(** [os.putenv(name, value)] *)
Definition os_putenv (name value : string) : M unit :=
  fun s =>
    ([Putenv name value], mkState (putenv os name value (world s)) (stdin s) (options s), Return tt).

(** [try: body except RuntimeError as error: handler(str(error))] *)
Definition try_except_RuntimeError {A} (body : M A) (handler : string -> M A) : M A :=
  fun s =>
    match body s with
    | (t1, s1, Raise (RuntimeError msg)) =>
        match handler msg s1 with
        | (t2, s2, r) => (t1 ++ t2, s2, r)
        end
    | x => x
    end.

(** ** Module-level functions *)

Definition third_party_path : string :=
  path_join os (path_join os (path_join os (root os) "src") "qt") "3rdparty".

(* check if path points to an executable *)
Definition isExe (fpath : string) : M bool :=
  ask (fun w => isfile os w fpath && access_X_OK os w fpath).

(** The loop of [which] over the entries of PATH; [path.strip('')] strips
    nothing. *)
Fixpoint which_loop (program : string) (paths : list string) : M (option string) :=
  match paths with
  | [] => ret None
  | path :: rest =>
      let exe_file := path_join os path program in
      found <- isExe exe_file;;
      if found then ret (Some exe_file) else which_loop program rest
  end.

(* find path to executable in PATH environment variable *)
Definition which (program : string) : M (option string) :=
  direct <- isExe program;;
  if direct then ret (Some program)
  else
    match environ os "PATH" with
    | None => raise (KeyError "PATH")
    | Some PATH => which_loop program (Py.split (pathsep os) PATH)
    end.

(* returns the path to the QMake executable *)
Definition qmakePath : string :=
  let exe := "qmake" in
  let exe := if system os =? "Windows" then (exe ++ ".exe")%string else exe in
  abspath os ("src/qt/qtbase/bin/" ++ exe)%string.

(* returns paths for 3rd party libraries (Windows only) *)
Definition findThirdPartyDeps : list string * list string :=
  (flat_map (fun dep => ["-I"; path_join os (path_join os third_party_path dep) "include"])
     third_party_names,
   flat_map (fun dep => ["-L"; path_join os (path_join os third_party_path dep) "lib"])
     third_party_names).

(** ** class PhantomJSBuilder *)

Definition __init__ : M PhantomJSBuilder :=
  command <-
    (if system os =? "Windows" then
       makeExe <- which "jom.exe";;
       let makeExe := match makeExe with
                      | Some (String _ _ as found) => found
                      | _ => "nmake"          (* if not makeExe *)
                      end in
       ret [Py.Str makeExe; Py.Str "/NOLOGO"]
     else
       o <- get_options;;
       let flags :=
         if Py.truthy_int (jobs o) then
           match jobs o with
           | Some n => [Py.Str "-j"; Py.Int n]
           | None => []
           end
         else if negb (Re.matches Re.jobs_pattern (getenv "MAKEFLAGS" EmptyString)) then
           [Py.Str "-j"; Py.Int (cpu_count os)]
         else [] in
       ret (Py.Str "make" :: flags));;
  (* if there is no git subdirectory, automatically go into no-git mode *)
  git <- ask (fun w => isdir os w ".git");;
  (if negb git then modify_options (set_skip_git true) else ret tt);;;
  ret (mkBuilder command).

(* run the given command in the given working directory *)
Definition execute (command : list Py.value) (workingDirectory : string) : M Z :=
  let command := map Py.str command in
  let workingDirectory := abspath os workingDirectory in
  tell (Echo workingDirectory command);;;
  o <- get_options;;
  if dry_run o then ret 0%Z
  else Popen_wait command workingDirectory.

(* run git clean in the specified path *)
Definition gitClean (path : string) : M Z :=
  o <- get_options;;
  if skip_git o then ret 0%Z
  else execute [Py.Str "git"; Py.Str "clean"; Py.Str "-xfd"] path.

(* run make, nmake or jom in the specified path *)
Definition make (self : PhantomJSBuilder) (path : string) : M Z :=
  execute (makeCommand self) path.

(* run qmake in the specified path *)
Definition qmake (path : string) (options : option (list string)) : M Z :=
  let qmake := qmakePath in
  exe <- isExe qmake;;
  o <- get_options;;
  if negb exe && negb (dry_run o) then
    raise (RuntimeError ("Could not find QMake executable: " ++ qmake)%string)
  else
    let command := [qmake] in
    let command := if Py.truthy_list (qmake_args o)
                   then command ++ Py.elems (qmake_args o) else command in
    let command := if Py.truthy_list options
                   then command ++ Py.elems options else command in
    execute (map Py.Str command) path.

(** The [for search_path in openssl_search_paths] loop of
    [platformQtConfigureOptions]; it carries [openssl_found] and
    [platformOptions]. *)
Fixpoint openssl_search (paths : list SearchPath) (openssl_found : bool)
    (platformOptions : list string) : M (bool * list string) :=
  match paths with
  | [] => ret (openssl_found, platformOptions)
  | search_path :: rest =>
      present <- exists_ (header search_path);;
      if present then
        print ("Found OpenSSL installed via " ++ name search_path)%string;;;
        openssl_search rest true (platformOptions ++ flags search_path)
      else openssl_search rest openssl_found platformOptions
  end.

(** The literal list of the Unix branch of [platformQtConfigureOptions]. *)
Definition unix_platformOptions : list string := [
  "-qpa"; "phantom";
  "-no-qpa-platform-guard";
  "-openssl"; "-openssl-linked";
  "-no-openvg";
  "-no-eglfs";
  "-no-egl";
  "-no-glib";
  "-no-cups";
  "-no-sm";
  "-no-xkb";
  "-no-xcb";
  "-no-kms";
  "-no-linuxfb";
  "-no-directfb";
  "-no-mtdev";
  "-no-libudev";
  "-no-evdev";
  "-no-feature-printpreviewwidget"
].

(** Reading a local variable that may not have been assigned. *)
Definition read_local {A} (name : string) (v : option A) : M A :=
  match v with
  | Some x => ret x
  | None => raise (UnboundLocalError name)
  end.

(* returns a list of platform specific Qt Base configure options *)
Definition platformQtConfigureOptions : M (list string) :=
  if system os =? "Windows" then
    let platformOptions := [
      "-mp";
      "-static-runtime";
      "-no-cetest";
      "-no-angle";
      "-icu";
      "-openssl";
      "-openssl-linked"
    ] in
    let deps := findThirdPartyDeps in
    ret (platformOptions ++ fst deps ++ snd deps)
  else
    (* Unix platform options *)
    let platformOptions := unix_platformOptions in
    o <- get_options;;
    let platformOptions :=
      if silent o then platformOptions ++ ["-silent"] else platformOptions in
    if system os =? "Darwin" then
      let platformOptions := platformOptions ++ ["-no-pkg-config"] in
      let openssl := getenv "OPENSSL" EmptyString in
      if openssl =? EmptyString then
        (* search for OpenSSL *)
        found <- openssl_search openssl_search_paths false platformOptions;;
        let '(openssl_found, platformOptions) := found in
        if negb openssl_found then raise (RuntimeError "Could not find OpenSSL")
        else ret platformOptions
      else
        (* openssl_found is not assigned before this point *)
        present <- exists_ (openssl ++ "/include/openssl/opensslv.h")%string;;
        found <-
          (if present then
             let openssl_include := ("-I" ++ openssl ++ "/include")%string in
             let openssl_lib := ("-L" ++ openssl ++ "/lib")%string in
             print ("Using OpenSSL at " ++ openssl)%string;;;
             ret (Some true, platformOptions ++ [openssl_include; openssl_lib])
           else ret (None, platformOptions));;
        let '(openssl_found, platformOptions) := found in
        openssl_found <- read_local "openssl_found" openssl_found;;
        if negb openssl_found then
          raise (RuntimeError "No OpenSSL specified: OPENSSL environment variable not found")
        else ret platformOptions
    else
      (* options specific to other Unixes, like Linux, BSD, ... *)
      ret (platformOptions ++ ["-fontconfig"; "-icu"]).

(** The argument list that [configureQtBase] builds before it executes it. *)
Definition configureQtBase_command : M (list string) :=
  let configureExe := abspath os "src/qt/qtbase/configure" in
  let configureExe :=
    if system os =? "Windows" then (configureExe ++ ".bat")%string else configureExe in
  let configure := [configureExe;
    "-static";
    "-opensource";
    "-confirm-license";
    "-prefix"; abspath os "src/qt/qtbase";
    "-qt-zlib";
    "-qt-libpng";
    "-qt-libjpeg";
    "-qt-pcre";
    "-nomake"; "examples";
    "-nomake"; "tools";
    "-nomake"; "tests";
    "-no-dbus";
    "-no-opengl";
    "-no-qml-debug";
    "-no-sql-db2";
    "-no-sql-ibase";
    "-no-sql-mysql";
    "-no-sql-oci";
    "-no-sql-odbc";
    "-no-sql-psql";
    "-no-sql-sqlite";
    "-no-sql-sqlite2";
    "-no-sql-tds";
    "-no-tslib";
    "-no-xcb-xlib"
  ] in
  let configure :=
    configure ++ flat_map (fun qt_compile_def => ["-D"; qt_compile_def]) qt_compile_defs in
  platformOptions <- platformQtConfigureOptions;;
  let configure := configure ++ platformOptions in
  o <- get_options;;
  let configure :=
    if Py.truthy_list (qt_config o)
    then configure ++ Py.split " " (Py.join EmptyString (Py.elems (qt_config o)))
    else configure in
  let configure :=
    if debug o then configure ++ ["-debug"]
    else if release o then configure ++ ["-release"]
    else configure ++ ["-release"] in
  ret configure.

(* configure Qt Base *)
Definition configureQtBase : M unit :=
  print "configuring Qt Base, please wait...";;;
  configure <- configureQtBase_command;;
  status <- execute (map Py.Str configure) "src/qt/qtbase";;
  if negb (Z.eqb status 0) then raise (RuntimeError "Configuration of Qt Base failed.")
  else ret tt.

(* build Qt Base *)
Definition buildQtBase (self : PhantomJSBuilder) : M unit :=
  o <- get_options;;
  if skip_qtbase o then print "Skipping build of Qt Base"
  else
    (* Removing libraries imported from webkit installation *)
    subprocess_call_shell ["rm"; abspath os "src/qt/qtbase/lib/libQt5WebKit*"];;;
    subprocess_call_shell ["rm"; abspath os "src/qt/qtbase/mkspecs/modules/qt_lib_webkit*"];;;
    (if git_clean_qtbase o then (_ <- gitClean "src/qt/qtbase";; ret tt) else ret tt);;;
    (if git_clean_qtbase o || negb (skip_configure_qtbase o) then configureQtBase
     else ret tt);;;
    print "building Qt Base, please wait...";;;
    status <- make self "src/qt/qtbase";;
    if negb (Z.eqb status 0) then raise (RuntimeError "Building Qt Base failed.")
    else ret tt.

(* build Qt WebKit *)
Definition buildQtWebKit (self : PhantomJSBuilder) : M unit :=
  o <- get_options;;
  if skip_qtwebkit o then print "Skipping build of Qt WebKit"
  else
    (if git_clean_qtwebkit o then (_ <- gitClean "src/qt/webkit";; ret tt) else ret tt);;;
    os_putenv "SQLITE3SRCDIR" (abspath os "src/qt/qtbase/src/3rdparty/sqlite");;;
    print "configuring Qt WebKit, please wait...";;;
    let enable_touch_events := if disable_touch_events o then "OFF" else "ON" in
    let cmakeArgs := [
      "-Wno-dev";
      ("-DCMAKE_INSTALL_PREFIX=" ++ abspath os "src/qt/qtwebkit")%string;
      ("-DCMAKE_PREFIX_PATH=" ++ abspath os "src/qt/qtbase")%string;
      ("-DQT_COMPILE_DEFINITIONS=" ++ Py.dquote ++ Py.join " " qt_compile_defs ++ Py.dquote)%string;
      "-DENABLE_TOOLS=OFF";
      "-DENABLE_API_TESTS=OFF";
      "-DENABLE_TEST_SUPPORT=OFF";
      "-DENABLE_FTL_JIT=OFF";
      "-DENABLE_INDEXED_DATABASE=OFF";
      "-DENABLE_GSTREAMER=OFF";
      ("-DENABLE_TOUCH_EVENTS=" ++ enable_touch_events)%string
    ] in
    let command := [
      "./Tools/Scripts/build-webkit";
      "--qt";
      ("--cmakeargs=" ++ Py.dquote
         ++ Py.replace "034" (Py.backslash ++ Py.dquote) (Py.join " " cmakeArgs)
         ++ Py.dquote)%string;
      "--no-geolocation";
      "--no-device-orientation";
      "--no-opengl";
      "--no-video";
      "--no-video-track";
      "--no-netscape-plugin-api";
      "--no-web-audio";
      "--no-fullscreen-api";
      "--no-legacy-web-audio";
      "--no-legacy-vendor-prefixes";
      "--no-web-replay"
    ] in
    print "building Qt WebKit, please wait...";;;
    match shlex_split os (Py.join " " command) with
    | None => raise ValueError
    | Some words =>
        status <- execute (map Py.Str words) "src/qt/webkit";;
        if negb (Z.eqb status 0) then raise (RuntimeError "Building Qt WebKit failed.")
        else
          (* Removing old libraries installed *)
          subprocess_call_shell ["rm"; "-rf"; abspath os "src/qt/qtwebkit"];;;
          (* Installing new libraries *)
          _ <- execute (makeCommand self ++ [Py.Str "install"])
                 "src/qt/webkit/WebKitBuild/Release";;
          (* Moving needed libraries into qtbase *)
          subprocess_call_shell ["cp"; abspath os "src/qt/qtwebkit/lib/libQt5WebKit*";
                                 abspath os "src/qt/qtbase/lib/"];;;
          subprocess_call_shell ["cp"; abspath os "src/qt/qtwebkit/mkspecs/modules/qt_lib_webkit*";
                                 abspath os "src/qt/qtbase/mkspecs/modules/"]
    end.

(* build PhantomJS *)
Definition buildPhantomJS (self : PhantomJSBuilder) : M unit :=
  print "Configuring PhantomJS, please wait...";;;
  o <- get_options;;
  status <- qmake "." (phantomjs_qmake_args o);;
  if negb (Z.eqb status 0) then raise (RuntimeError "Configuration of PhantomJS failed.")
  else
    print "Building PhantomJS, please wait...";;;
    status <- make self ".";;
    if negb (Z.eqb status 0) then raise (RuntimeError "Building PhantomJS failed.")
    else ret tt.

(* ensure the git submodules are all available *)
Definition ensureSubmodulesAvailable : M unit :=
  o <- get_options;;
  if skip_git o then ret tt
  else
    status <- execute [Py.Str "git"; Py.Str "submodule"; Py.Str "init"] ".";;
    if negb (Z.eqb status 0) then
      raise (RuntimeError "Initialization of git submodules failed.")
    else
      status <- execute [Py.Str "git"; Py.Str "submodule"; Py.Str "update"] ".";;
      if negb (Z.eqb status 0) then
        raise (RuntimeError "Initial update of git submodules failed.")
      else ret tt.

(* run all build steps required to get a final PhantomJS binary at the end *)
Definition run (self : PhantomJSBuilder) : M unit :=
  ensureSubmodulesAvailable;;;
  buildQtBase self;;;
  buildQtWebKit self;;;
  buildPhantomJS self.

(** ** parseArguments and main *)

(** [parseArguments], from the point where [parser.parse_args()] has
    returned: the namespace it built is the options object of the state,
    and what remains is the check of the two mode flags.  [argparse] itself
    is outside the model.  On a command line that it rejects, and on
    [--help], [parse_args] does not return: it writes the usage to standard
    error, or the help to standard output, and ends the script with
    [SystemExit] (code 2, or 0) before anything modelled here happens.
    Every statement about [main] below is about the runs in which
    [parse_args] returns. *)
Definition parseArguments : M unit :=
  o <- get_options;;
  if debug o && release o then
    raise (RuntimeError "Cannot build with both debug and release mode enabled.")
  else ret tt.

Definition warning : string :=
"----------------------------------------
               WARNING
----------------------------------------
Building PhantomJS from source takes a very long time, anywhere from 30 minutes
to several hours (depending on the machine configuration). It is recommended to
use the premade binary packages on supported operating systems.
For details, please go the the web site: http://phantomjs.org/download.html.
".

(** The [while True] loop of [main] on the lines left on standard input;
    [readline()] at the end of the input is the empty string, which
    confirms.  The result is [false] when the build is cancelled. *)
Fixpoint confirm_loop (lines : list string) : list Event * list string * bool :=
  let ask := StdoutWrite "Do you want to continue (Y/n)? " in
  match lines with
  | [] => ([ask], [], true)
  | line :: rest =>
      let answer := Py.lower (Py.strip line) in
      if answer =? "n" then ([ask; Print "Cancelling PhantomJS build."], rest, false)
      else if (answer =? "y") || (answer =? EmptyString) then ([ask], rest, true)
      else
        match confirm_loop rest with
        | (t, rest', go) => (ask :: Print "Invalid answer, try again." :: t, rest', go)
        end
  end.

Definition confirmation : M bool :=
  fun s =>
    match confirm_loop (stdin s) with
    | (t, rest, go) => (t, mkState (world s) rest (options s), Return go)
    end.

(* main entry point which gets executed when this script is run *)
Definition main : M unit :=
  try_except_RuntimeError
    (parseArguments;;;
     o <- get_options;;
     go <- (if negb (confirm o) then (print warning;;; confirmation) else ret true);;
     if go then
       builder <- __init__;;
       run builder
     else ret tt)
    (fun error =>
       tell (StderrWrite (Py.nl ++ "ERROR: Failed to build PhantomJS! " ++ error ++ Py.nl)%string);;;
       raise (SystemExit 1)).

End Script.

(** ** Concrete hosts *)

(** Hosts whose file system does not change: the world is [unit], the
    files and directories are listed, every listed file is executable, and
    every child process returns [status].  Paths are joined as by
    [posixpath.join]. *)
Module Static.

Fixpoint lookup (key : string) (env : list (string * string)) : option string :=
  match env with
  | [] => None
  | (k, v) :: rest => if k =? key then Some v else lookup key rest
  end.

Definition member (path : string) (paths : list string) : bool :=
  existsb (String.eqb path) paths.

(** [os.path.abspath] on the normal relative paths the script uses. *)
Definition abspath_in (root path : string) : string :=
  if path =? "." then root
  else
    match Py.reverse path with
    | String "/" r => (root ++ "/" ++ Py.reverse r)%string
    | _ => (root ++ "/" ++ path)%string
    end.

Definition host (system : string) (pathsep : ascii) (cpu_count : Z)
    (env : list (string * string)) (files dirs : list string) (status : Z) : @Host unit :=
  {| system := system;
     root := "/src/phantomjs";
     cpu_count := cpu_count;
     environ := fun k => lookup k env;
     pathsep := pathsep;
     path_join := Py.posix_join;
     abspath := abspath_in "/src/phantomjs";
     shlex_split := Py.shlex_split;
     isfile := fun _ path => member path files;
     access_X_OK := fun _ path => member path files;
     path_exists := fun _ path => member path files || member path dirs;
     isdir := fun _ path => member path dirs;
     popen_wait := fun _ _ w => (w, Some status);
     shell_call := fun _ w => w;
     putenv := fun _ _ w => w |}.

Definition qmake_exe : string := "/src/phantomjs/src/qt/qtbase/bin/qmake".

(** A Linux checkout with a built qmake. *)
Definition linux : @Host unit :=
  host "Linux" ":" 8 [("PATH", "/usr/bin:/bin")] [qmake_exe] [".git"] 0.

(** The same with [MAKEFLAGS=-j4] inherited. *)
Definition linux_makeflags : @Host unit :=
  host "Linux" ":" 8 [("PATH", "/usr/bin:/bin"); ("MAKEFLAGS", "-j4")] [qmake_exe] [".git"] 0.

(** A Linux source tree unpacked from a tarball: no [.git]. *)
Definition linux_tarball : @Host unit :=
  host "Linux" ":" 8 [("PATH", "/usr/bin:/bin")] [qmake_exe] [] 0.

(** Darwin with OpenSSL installed by both package managers. *)
Definition darwin_both : @Host unit :=
  host "Darwin" ":" 4 [("PATH", "/usr/bin:/bin")]
    ["/usr/local/opt/openssl/include/openssl/opensslv.h";
     "/opt/local/include/openssl/opensslv.h"] [".git"] 0.

(** Darwin with [OPENSSL] pointing to a directory without the header,
    while MacPorts has it. *)
Definition darwin_override : @Host unit :=
  host "Darwin" ":" 4 [("PATH", "/usr/bin:/bin"); ("OPENSSL", "/opt/ssl")]
    ["/opt/local/include/openssl/opensslv.h"] [".git"] 0.

(** Windows without a PATH variable. *)
Definition windows_no_path : @Host unit :=
  host "Windows" ";" 4 [] [] [".git"] 0.

(** The namespace of a command line without arguments. *)
Definition no_arguments : Options :=
  {| release := false; debug := false; jobs := None; confirm := false; dry_run := false;
     silent := false; qmake_args := None; webkit_qmake_args := None;
     phantomjs_qmake_args := None; qt_config := None; git_clean_qtbase := false;
     git_clean_qtwebkit := false; skip_qtbase := false; skip_configure_qtbase := false;
     skip_qtwebkit := false; skip_configure_qtwebkit := false; skip_git := false;
     disable_touch_events := false |}.

Definition start (o : Options) : @State unit := mkState tt [] o.

(** [build.py --confirm --dry-run] *)
Definition dry : Options :=
  {| release := false; debug := false; jobs := None; confirm := true; dry_run := true;
     silent := false; qmake_args := None; webkit_qmake_args := None;
     phantomjs_qmake_args := None; qt_config := None; git_clean_qtbase := false;
     git_clean_qtwebkit := false; skip_qtbase := false; skip_configure_qtbase := false;
     skip_qtwebkit := false; skip_configure_qtwebkit := false; skip_git := false;
     disable_touch_events := false |}.

(** [build.py --confirm] *)
Definition confirmed : Options :=
  {| release := false; debug := false; jobs := None; confirm := true; dry_run := false;
     silent := false; qmake_args := None; webkit_qmake_args := None;
     phantomjs_qmake_args := None; qt_config := None; git_clean_qtbase := false;
     git_clean_qtwebkit := false; skip_qtbase := false; skip_configure_qtbase := false;
     skip_qtwebkit := false; skip_configure_qtwebkit := false; skip_git := false;
     disable_touch_events := false |}.

(** [build.py --confirm --debug --release] *)
Definition both_modes : Options :=
  {| release := true; debug := true; jobs := None; confirm := true; dry_run := false;
     silent := false; qmake_args := None; webkit_qmake_args := None;
     phantomjs_qmake_args := None; qt_config := None; git_clean_qtbase := false;
     git_clean_qtwebkit := false; skip_qtbase := false; skip_configure_qtbase := false;
     skip_qtwebkit := false; skip_configure_qtwebkit := false; skip_git := false;
     disable_touch_events := false |}.

(** [build.py --confirm --git-clean-qtbase --skip-configure-qtbase] *)
Definition clean_skip_configure : Options :=
  {| release := false; debug := false; jobs := None; confirm := true; dry_run := false;
     silent := false; qmake_args := None; webkit_qmake_args := None;
     phantomjs_qmake_args := None; qt_config := None; git_clean_qtbase := true;
     git_clean_qtwebkit := false; skip_qtbase := false; skip_configure_qtbase := true;
     skip_qtwebkit := false; skip_configure_qtwebkit := false; skip_git := false;
     disable_touch_events := false |}.

(** [build.py --confirm --skip-qtbase --skip-configure-qtbase --skip-qtwebkit --skip-git] *)
Definition all_skipped : Options :=
  {| release := false; debug := false; jobs := None; confirm := true; dry_run := false;
     silent := false; qmake_args := None; webkit_qmake_args := None;
     phantomjs_qmake_args := None; qt_config := None; git_clean_qtbase := false;
     git_clean_qtwebkit := false; skip_qtbase := true; skip_configure_qtbase := true;
     skip_qtwebkit := true; skip_configure_qtwebkit := false; skip_git := true;
     disable_touch_events := false |}.

(** [build.py --confirm --qt-config=-foo] *)
Definition one_qt_config : Options :=
  {| release := false; debug := false; jobs := None; confirm := true; dry_run := false;
     silent := false; qmake_args := None; webkit_qmake_args := None;
     phantomjs_qmake_args := None; qt_config := Some ["-foo"];
     git_clean_qtbase := false; git_clean_qtwebkit := false; skip_qtbase := false;
     skip_configure_qtbase := false; skip_qtwebkit := false;
     skip_configure_qtwebkit := false; skip_git := false; disable_touch_events := false |}.

(** [build.py --confirm --qt-config=-foo --qt-config=-bar] *)
Definition two_qt_config : Options :=
  {| release := false; debug := false; jobs := None; confirm := true; dry_run := false;
     silent := false; qmake_args := None; webkit_qmake_args := None;
     phantomjs_qmake_args := None; qt_config := Some ["-foo"; "-bar"];
     git_clean_qtbase := false; git_clean_qtwebkit := false; skip_qtbase := false;
     skip_configure_qtbase := false; skip_qtwebkit := false;
     skip_configure_qtwebkit := false; skip_git := false; disable_touch_events := false |}.

(** [build.py --confirm --jobs 0] *)
Definition zero_jobs : Options :=
  {| release := false; debug := false; jobs := Some 0%Z; confirm := true;
     dry_run := false; silent := false; qmake_args := None; webkit_qmake_args := None;
     phantomjs_qmake_args := None; qt_config := None; git_clean_qtbase := false;
     git_clean_qtwebkit := false; skip_qtbase := false; skip_configure_qtbase := false;
     skip_qtwebkit := false; skip_configure_qtwebkit := false; skip_git := false;
     disable_touch_events := false |}.

(** [build.py --confirm --jobs 3] *)
Definition three_jobs : Options :=
  {| release := false; debug := false; jobs := Some 3%Z; confirm := true;
     dry_run := false; silent := false; qmake_args := None; webkit_qmake_args := None;
     phantomjs_qmake_args := None; qt_config := None; git_clean_qtbase := false;
     git_clean_qtwebkit := false; skip_qtbase := false; skip_configure_qtbase := false;
     skip_qtwebkit := false; skip_configure_qtwebkit := false; skip_git := false;
     disable_touch_events := false |}.

End Static.

(** ** Vocabulary of the properties *)

(** [m] emits only events that satisfy [P] and leaves the options object
    as it found it, when that object holds [o]. *)
Definition keeps {W A} (P : Event -> Prop) (o : Options) (m : @M W A) : Prop :=
  forall s, options s = o ->
    Forall P (events (m s)) /\ options (final (m s)) = o.

(** [m] emits only events that satisfy [P] and maintains [I] of the
    options object. *)
Definition invariant {W A} (I : Options -> Prop) (P : Event -> Prop) (m : @M W A) : Prop :=
  forall s, I (options s) ->
    Forall P (events (m s)) /\ I (options (final (m s))).

(** [m] changes nothing, and what it emits and returns depends on the
    state of the world only, not on the options or on standard input. *)
Definition reads_world {W A} (m : @M W A) : Prop :=
  forall s1 s2, world s1 = world s2 ->
    final (m s1) = s1 /\
    events (m s1) = events (m s2) /\
    outcome (m s1) = outcome (m s2).

(** [m] never assigns to a field of the options object. *)
Definition preserves_options {W A} (m : @M W A) : Prop :=
  forall s, options (final (m s)) = options s.

Definition not_Popen (e : Event) : Prop :=
  match e with
  | Popen _ _ => False
  | _ => True
  end.

Definition is_probe (e : Event) : bool :=
  match e with
  | PathExists _ => true
  | _ => false
  end.

(** The string has no occurrence of the character. *)
Fixpoint free_of (c : ascii) (s : string) : bool :=
  match s with
  | EmptyString => true
  | String d r => negb (Ascii.eqb d c) && free_of c r
  end.

(** The tokens that [configureQtBase] derives from [--qt-config]. *)
Definition qt_config_tokens (o : Options) : list string :=
  if Py.truthy_list (qt_config o)
  then Py.split " " (Py.join EmptyString (Py.elems (qt_config o)))
  else [].

(** The mode flag that [configureQtBase] appends last. *)
Definition mode_flag (o : Options) : string :=
  if debug o then "-debug" else "-release".

(** [re.search(r, s)] is not [None]: [r] matches at some position of [s].
    The script never calls it.  It gives the words "contains a -j N" of the
    comment in [__init__] a meaning, beside the [re.match] of the code. *)
Fixpoint search (r : Re.regex) (s : string) : bool :=
  Re.matches r s ||
  match s with
  | EmptyString => false
  | String _ s' => search r s'
  end.

(** ** More hosts and command lines *)

Module Scenario.

(** A Linux checkout in which every child process returns 1. *)
Definition linux_failing : @Host unit :=
  Static.host "Linux" ":" 8 [("PATH", "/usr/bin:/bin")] [Static.qmake_exe] [".git"] 1.

(** Linux with [MAKEFLAGS] holding [-j], a unit separator (0x1F), [4 -k]. *)
Definition linux_separator : @Host unit :=
  Static.host "Linux" ":" 8
    [("PATH", "/usr/bin:/bin"); ("MAKEFLAGS", ("-j" ++ String "031" "4 -k")%string)]
    [Static.qmake_exe] [".git"] 0.

(** Windows with jom.exe in the second directory of PATH. *)
Definition windows_jom : @Host unit :=
  Static.host "Windows" ";" 4 [("PATH", "C:/Windows;C:/jom")] ["C:/jom/jom.exe"] [".git"] 0.

(** [build.py --confirm --dry-run --skip-qtbase --skip-qtwebkit] *)
Definition resume_dry : Options :=
  {| release := false; debug := false; jobs := None; confirm := true; dry_run := true;
     silent := false; qmake_args := None; webkit_qmake_args := None;
     phantomjs_qmake_args := Some ["CONFIG+=static"]; qt_config := None;
     git_clean_qtbase := false; git_clean_qtwebkit := false; skip_qtbase := true;
     skip_configure_qtbase := false; skip_qtwebkit := true; skip_configure_qtwebkit := false;
     skip_git := false; disable_touch_events := false |}.

(** The user types a stray line and then "N" after a unit separator (0x1F)
    and a space. *)
Definition refusing : @State unit :=
  mkState tt [("maybe" ++ Py.nl)%string; (String "031" " N" ++ Py.nl)%string;
              ("y" ++ Py.nl)%string]
    Static.no_arguments.

(** A tarball tree (no [.git]) given [--git-clean-qtbase]. *)
Definition tarball_git_clean : Options :=
  {| release := false; debug := false; jobs := None; confirm := true; dry_run := true;
     silent := false; qmake_args := None; webkit_qmake_args := None;
     phantomjs_qmake_args := None; qt_config := None;
     git_clean_qtbase := true; git_clean_qtwebkit := true; skip_qtbase := false;
     skip_configure_qtbase := false; skip_qtwebkit := false; skip_configure_qtwebkit := false;
     skip_git := false; disable_touch_events := false |}.

End Scenario.

(** ** Vocabulary of the further properties *)

(** Neither a process started by [Popen] nor a write to standard error. *)
Definition plain (e : Event) : Prop :=
  match e with
  | Popen _ _ | StderrWrite _ => False
  | _ => True
  end.

Definition not_stderr (e : Event) : Prop :=
  match e with
  | StderrWrite _ => False
  | _ => True
  end.

(** A trace in which every [Popen] comes right after the preview of the
    same command in the same directory. *)
Inductive audited : list Event -> Prop :=
| audited_nil : audited []
| audited_other e t : not_Popen e -> audited t -> audited (e :: t)
| audited_exec w c t : audited t -> audited (Echo w c :: Popen c w :: t).

(** When the options object holds [o], [m] emits a trace in [T], leaves the
    options object and standard input alone, and raises only exceptions in
    [Q]. *)
Definition behaves {W A} (T : list Event -> Prop) (Q : Exception -> Prop) (o : Options)
    (m : @M W A) : Prop :=
  forall s, options s = o ->
    T (events (m s)) /\
    options (final (m s)) = o /\
    stdin (final (m s)) = stdin s /\
    (forall e, outcome (m s) = Raise e -> Q e).

(** From a state in [I], [m] emits a trace in [T], ends in a state in [I]
    and raises only exceptions in [Q]. *)
Definition upholds {W A} (I : @State W -> Prop) (T : list Event -> Prop)
    (Q : Exception -> Prop) (m : @M W A) : Prop :=
  forall s, I s ->
    T (events (m s)) /\
    I (final (m s)) /\
    (forall e, outcome (m s) = Raise e -> Q e).

(** The line that [main] writes to standard error for a [RuntimeError]. *)
Definition error_line (msg : string) : string :=
  (Py.nl ++ "ERROR: Failed to build PhantomJS! " ++ msg ++ Py.nl)%string.

(** The body of the [try] statement of [main]. *)
Definition main_body {W} (os : @Host W) : M unit :=
  bind parseArguments (fun _ =>
  bind get_options (fun o =>
  bind (if negb (confirm o) then bind (print warning) (fun _ => confirmation) else ret true)
    (fun go =>
       if go then bind (__init__ os) (fun builder => run os builder)
       else ret tt))).

(** The [except RuntimeError] clause of [main]. *)
Definition main_handler {W} (error : string) : @M W unit :=
  bind (tell (StderrWrite (error_line error))) (fun _ => raise (SystemExit 1)).

(** The messages of the [RuntimeError]s raised in build.py, but for the one
    of the OPENSSL branch of [platformQtConfigureOptions]. *)
Definition failure_messages {W} (os : @Host W) : list string := [
  "Cannot build with both debug and release mode enabled.";
  ("Could not find QMake executable: " ++ qmakePath os)%string;
  "Could not find OpenSSL";
  "Configuration of Qt Base failed.";
  "Building Qt Base failed.";
  "Building Qt WebKit failed.";
  "Configuration of PhantomJS failed.";
  "Building PhantomJS failed.";
  "Initialization of git submodules failed.";
  "Initial update of git submodules failed."
].

(** The message of the [RuntimeError] in the OPENSSL branch of
    [platformQtConfigureOptions]. *)
Definition unreachable_message : string :=
  "No OpenSSL specified: OPENSSL environment variable not found".

(** The answer that [main] reads out of a line of standard input. *)
Definition answer (line : string) : string := Py.lower (Py.strip line).

(** The answers that end the dialogue: "n", "y" and the empty answer. *)
Definition decisive (line : string) : bool :=
  (answer line =? "n") || ((answer line =? "y") || (answer line =? EmptyString)).

Definition ask_to_continue : Event := StdoutWrite "Do you want to continue (Y/n)? ".

(** The strings that a regular expression matches from end to end. *)
Inductive denotes : Re.regex -> string -> Prop :=
| denotes_Eps : denotes Re.Eps EmptyString
| denotes_Cls p c : p c = true -> denotes (Re.Cls p) (String c EmptyString)
| denotes_Seq r1 r2 s1 s2 :
    denotes r1 s1 -> denotes r2 s2 -> denotes (Re.Seq r1 r2) (s1 ++ s2)%string
| denotes_Alt_left r1 r2 s : denotes r1 s -> denotes (Re.Alt r1 r2) s
| denotes_Alt_right r1 r2 s : denotes r2 s -> denotes (Re.Alt r1 r2) s
| denotes_Star_stop r : denotes (Re.Star r) EmptyString
| denotes_Star_more r s1 s2 :
    denotes r s1 -> denotes (Re.Star r) s2 -> denotes (Re.Star r) (s1 ++ s2)%string.

(** Every character of the string satisfies the test. *)
Fixpoint every (test : ascii -> bool) (s : string) : bool :=
  match s with
  | EmptyString => true
  | String c r => test c && every test r
  end.

(** [options.webkit_qmake_args = v; options.skip_configure_qtwebkit = w] *)
Definition set_unused (v : option (list string)) (w : bool) (o : Options) : Options :=
  mkOptions (release o) (debug o) (jobs o) (confirm o) (dry_run o) (silent o)
    (qmake_args o) v (phantomjs_qmake_args o) (qt_config o)
    (git_clean_qtbase o) (git_clean_qtwebkit o) (skip_qtbase o)
    (skip_configure_qtbase o) (skip_qtwebkit o) w
    (skip_git o) (disable_touch_events o).

(** Changing the options with [f] beforehand changes nothing in what [m]
    does: same events, same outcome, same final state up to [f]. *)
Definition unaffected {W A} (f : Options -> Options) (m : @M W A) : Prop :=
  forall s,
    m (with_options f s) = (events (m s), with_options f (final (m s)), outcome (m s)).

(** The [cmakeArgs] list of [buildQtWebKit]. *)
Definition cmakeArgs {W} (os : @Host W) (o : Options) : list string := [
  "-Wno-dev";
  ("-DCMAKE_INSTALL_PREFIX=" ++ abspath os "src/qt/qtwebkit")%string;
  ("-DCMAKE_PREFIX_PATH=" ++ abspath os "src/qt/qtbase")%string;
  ("-DQT_COMPILE_DEFINITIONS=" ++ Py.dquote ++ Py.join " " qt_compile_defs ++ Py.dquote)%string;
  "-DENABLE_TOOLS=OFF";
  "-DENABLE_API_TESTS=OFF";
  "-DENABLE_TEST_SUPPORT=OFF";
  "-DENABLE_FTL_JIT=OFF";
  "-DENABLE_INDEXED_DATABASE=OFF";
  "-DENABLE_GSTREAMER=OFF";
  ("-DENABLE_TOUCH_EVENTS=" ++ (if disable_touch_events o then "OFF" else "ON"))%string
].

(** * Properties *)

(** ** The library functions, on examples *)

Example split_keeps_empty_fields :
  Py.split " " "a  b" = ["a"; EmptyString; "b"] /\ Py.split " " EmptyString = [EmptyString].
Proof. split; reflexivity. Qed.

Example str_of_integers :
  Py.str (Py.Int 0) = "0" /\ Py.str (Py.Int 12) = "12" /\ Py.str (Py.Int (-3)) = "-3".
Proof. repeat split; reflexivity. Qed.

Example answer_is_stripped_and_lowered : Py.lower (Py.strip (" Y" ++ Py.nl)) = "y".
Proof. reflexivity. Qed.

Example jobs_pattern_matches_at_the_start :
  Re.matches Re.jobs_pattern "-j 4 -k" = true /\
  Re.matches Re.jobs_pattern "-j" = false /\
  Re.matches Re.jobs_pattern "-k -j4" = false /\
  Re.matches Re.jobs_pattern EmptyString = false.
Proof. repeat split; reflexivity. Qed.

Example white_space_of_str :
  Py.strip (String "031" "n" ++ Py.nl) = "n" /\
  Py.strip (String "160" "y") = "y" /\
  Re.matches Re.jobs_pattern ("-j" ++ String "031" "4") = true /\
  Py.lower (String "201" "N") = String "233" "n".
Proof. repeat split; reflexivity. Qed.

Example shlex_cuts_at_four_characters :
  Py.shlex_split ("a" ++ String "011" "b c" ++ String "012" "d" ++ String "013" "e")
    = Some [("a" ++ String "011" "b")%string; ("c" ++ String "012" "d")%string; "e"].
Proof. reflexivity. Qed.

Example search_looks_everywhere :
  search Re.jobs_pattern "-k -j4" = true /\ Re.matches Re.jobs_pattern "-k -j4" = false /\
  search Re.jobs_pattern "-k -j" = false.
Proof. repeat split; reflexivity. Qed.

Example shlex_split_quotes :
  Py.shlex_split ("a --x=" ++ Py.dquote ++ "b " ++ Py.backslash ++ Py.dquote ++ "c d"
                    ++ Py.backslash ++ Py.dquote ++ Py.dquote ++ " e")
    = Some ["a"; ("--x=b " ++ Py.dquote ++ "c d" ++ Py.dquote)%string; "e"] /\
  Py.shlex_split ("a " ++ Py.dquote ++ "b") = None.
Proof. split; reflexivity. Qed.

Section MonadFacts.

Context {W : Type}.
Implicit Types (s : @State W) (P : Event -> Prop) (o : Options).

Lemma bind_Return {A B} (m : @M W A) (k : A -> @M W B) s t1 s1 a :
  m s = (t1, s1, Return a) ->
  bind m k s = (t1 ++ events (k a s1), final (k a s1), outcome (k a s1)).
Proof.
  intros E. unfold bind, events, final, outcome. rewrite E.
  destruct (k a s1) as [[t2 s2] r]. reflexivity.
Qed.

Lemma bind_Raise {A B} (m : @M W A) (k : A -> @M W B) s t1 s1 e :
  m s = (t1, s1, Raise e) -> bind m k s = (t1, s1, Raise e).
Proof. intros E. unfold bind. rewrite E. reflexivity. Qed.

Lemma keeps_ret {A} P o (a : A) : keeps P o (@ret W A a).
Proof. intros s E. split; [constructor | exact E]. Qed.

Lemma keeps_raise {A} P o e : keeps P o (@raise W A e).
Proof. intros s E. split; [constructor | exact E]. Qed.

Lemma keeps_tell P o e : P e -> keeps P o (@tell W e).
Proof. intros H s E. split; [repeat constructor; exact H | exact E]. Qed.

Lemma keeps_ask {A} P o (q : W -> A) : keeps P o (ask q).
Proof. intros s E. split; [constructor | exact E]. Qed.

Lemma keeps_bind {A B} P o (m : @M W A) (k : A -> @M W B) :
  keeps P o m -> (forall a, keeps P o (k a)) -> keeps P o (bind m k).
Proof.
  intros Hm Hk s E. destruct (Hm s E) as [F1 E1].
  destruct (m s) as [[t1 s1] [a | e]] eqn:Em.
  - rewrite (bind_Return _ _ _ _ _ _ Em). cbn [events final fst snd] in *.
    destruct (Hk a s1 E1) as [F2 E2]. split; [apply Forall_app; split; assumption | exact E2].
  - rewrite (bind_Raise _ _ _ _ _ _ Em). split; assumption.
Qed.

Lemma keeps_get {A} P o (k : Options -> @M W A) :
  keeps P o (k o) -> keeps P o (bind (@get_options W) k).
Proof.
  intros Hk s E. unfold bind, get_options. rewrite E.
  destruct (Hk s E) as [F2 E2]. destruct (k o s) as [[t2 s2] r]. split; assumption.
Qed.

Lemma keeps_try {A} P o (body : @M W A) (handler : string -> @M W A) :
  keeps P o body -> (forall msg, keeps P o (handler msg)) ->
  keeps P o (try_except_RuntimeError body handler).
Proof.
  intros Hb Hh s E. unfold try_except_RuntimeError.
  destruct (Hb s E) as [F1 E1].
  destruct (body s) as [[t1 s1] [a | e]]; [split; assumption |].
  destruct e; try (split; assumption).
  cbn [events final fst snd] in *.
  destruct (Hh msg s1 E1) as [F2 E2].
  destruct (handler msg s1) as [[t2 s2] r]. cbn [events final fst snd] in *.
  split; [apply Forall_app; split; assumption | exact E2].
Qed.

Lemma keeps_preserves {A} (m : @M W A) :
  (forall o, keeps (fun _ => True) o m) -> preserves_options m.
Proof. intros H s. exact (proj2 (H (options s) s eq_refl)). Qed.

End MonadFacts.

(** One step of a proof that a computation [keeps] a property. *)
Ltac keeps_step :=
  lazymatch goal with
  | |- keeps _ _ (bind get_options _) => apply keeps_get; cbv beta
  | |- keeps _ _ (bind _ _) => apply keeps_bind; [| intros ?]
  | |- keeps _ _ (ret _) => apply keeps_ret
  | |- keeps _ _ (raise _) => apply keeps_raise
  | |- keeps _ _ (tell _) => apply keeps_tell; try exact I
  | |- keeps _ _ (print _) => apply keeps_tell; try exact I
  | |- keeps _ _ (ask _) => apply keeps_ask
  | |- keeps _ _ (if ?b then _ else _) => destruct b eqn:?
  | |- keeps _ _ (match ?x with _ => _ end) => destruct x eqn:?
  end.

Section Frame.

Context {W : Type} (os : @Host W).
Implicit Types (s : @State W) (P : Event -> Prop) (o : Options).

Lemma keeps_Popen_wait P o command cwd :
  P (Popen command cwd) -> keeps P o (Popen_wait os command cwd).
Proof.
  intros H s E. unfold Popen_wait.
  destruct (popen_wait os command cwd (world s)) as [w [rc | ]];
    (split; [repeat constructor; exact H | exact E]).
Qed.

Lemma keeps_shell P o command :
  P (ShellCall (Py.join " " command)) -> keeps P o (subprocess_call_shell os command).
Proof. intros H s E. split; [repeat constructor; exact H | exact E]. Qed.

Lemma keeps_putenv P o k v :
  P (Putenv k v) -> keeps P o (os_putenv os k v).
Proof. intros H s E. split; [repeat constructor; exact H | exact E]. Qed.

Lemma keeps_exists P o path :
  P (PathExists path) -> keeps P o (exists_ os path).
Proof. intros H. unfold exists_. repeat keeps_step. exact H. Qed.

Lemma keeps_isExe P o path : keeps P o (isExe os path).
Proof. apply keeps_ask. Qed.

Lemma keeps_confirmation P o :
  P (StdoutWrite "Do you want to continue (Y/n)? ") ->
  P (Print "Cancelling PhantomJS build.") ->
  P (Print "Invalid answer, try again.") ->
  keeps P o (@confirmation W).
Proof.
  intros H1 H2 H3 s E. unfold confirmation.
  assert (F : forall lines, Forall P (fst (fst (confirm_loop lines)))).
  { induction lines as [| line rest IH]; cbn [confirm_loop].
    - repeat constructor; assumption.
    - destruct (Py.lower (Py.strip line) =? "n"); [repeat constructor; assumption |].
      destruct ((Py.lower (Py.strip line) =? "y") || (Py.lower (Py.strip line) =? EmptyString));
        [repeat constructor; assumption |].
      destruct (confirm_loop rest) as [[t r] go]. cbn [fst] in *.
      repeat constructor; assumption. }
  specialize (F (stdin s)). destruct (confirm_loop (stdin s)) as [[t r] go].
  split; [exact F | exact E].
Qed.

(** [execute] previews, and starts the process unless [--dry-run]. *)
Lemma keeps_execute P o command workingDirectory :
  P (Echo (abspath os workingDirectory) (map Py.str command)) ->
  (dry_run o = false ->
   P (Popen (map Py.str command) (abspath os workingDirectory))) ->
  keeps P o (execute os command workingDirectory).
Proof.
  intros H1 H2. unfold execute. repeat keeps_step; [exact H1 |].
  apply keeps_Popen_wait. apply H2. reflexivity.
Qed.

End Frame.

(** ** What the builder's methods emit and preserve

    Every method below emits, besides [Popen], only events of other kinds,
    calls [Popen] only when [--dry-run] is off, and leaves the options
    object alone.  The lemmas are stated for any [P] that holds of all
    events but [Popen], and of [Popen] when [dry_run] is off. *)

Section Methods.

Context {W : Type} (os : @Host W).
Variables (P : Event -> Prop) (o : Options).
Hypothesis P_other : forall e, not_Popen e -> P e.
Hypothesis P_Popen : dry_run o = false -> forall command cwd, P (Popen command cwd).

Ltac emit := first
  [ keeps_step
  | apply keeps_execute; [apply P_other; exact I | intros ?; apply P_Popen; assumption]
  | apply keeps_shell; apply P_other; exact I
  | apply keeps_putenv; apply P_other; exact I
  | apply keeps_exists; apply P_other; exact I
  | apply keeps_isExe
  | apply P_other; exact I ].

Lemma keeps_gitClean path : keeps P o (gitClean os path).
Proof. unfold gitClean. repeat emit. Qed.

Lemma keeps_make self path : keeps P o (make os self path).
Proof. unfold make. repeat emit. Qed.

Lemma keeps_qmake path options : keeps P o (qmake os path options).
Proof. unfold qmake. repeat emit. Qed.

Lemma keeps_openssl_search paths found platformOptions :
  keeps P o (openssl_search os paths found platformOptions).
Proof.
  revert found platformOptions.
  induction paths as [| search_path rest IH]; intros; cbn [openssl_search].
  - apply keeps_ret.
  - repeat emit; apply IH.
Qed.

Lemma keeps_read_local {A} name (v : option A) : keeps P o (@read_local W A name v).
Proof. destruct v; [apply keeps_ret | apply keeps_raise]. Qed.

Lemma keeps_platformQtConfigureOptions : keeps P o (platformQtConfigureOptions os).
Proof.
  unfold platformQtConfigureOptions.
  repeat first [ apply keeps_openssl_search | apply keeps_read_local | emit ].
Qed.

Lemma keeps_configureQtBase_command : keeps P o (configureQtBase_command os).
Proof.
  unfold configureQtBase_command.
  repeat first [ apply keeps_platformQtConfigureOptions | emit ].
Qed.

Lemma keeps_configureQtBase : keeps P o (configureQtBase os).
Proof.
  unfold configureQtBase. repeat first [ apply keeps_configureQtBase_command | emit ].
Qed.

Lemma keeps_buildQtBase self : keeps P o (buildQtBase os self).
Proof.
  unfold buildQtBase.
  repeat first [ apply keeps_configureQtBase | apply keeps_gitClean | apply keeps_make | emit ].
Qed.

Lemma keeps_buildQtWebKit self : keeps P o (buildQtWebKit os self).
Proof.
  unfold buildQtWebKit. repeat first [ apply keeps_gitClean | emit ].
Qed.

Lemma keeps_buildPhantomJS self : keeps P o (buildPhantomJS os self).
Proof.
  unfold buildPhantomJS. repeat first [ apply keeps_qmake | apply keeps_make | emit ].
Qed.

Lemma keeps_ensureSubmodulesAvailable : keeps P o (ensureSubmodulesAvailable os).
Proof. unfold ensureSubmodulesAvailable. repeat emit. Qed.

Lemma keeps_run self : keeps P o (run os self).
Proof.
  unfold run.
  repeat first [ apply keeps_ensureSubmodulesAvailable | apply keeps_buildQtBase
               | apply keeps_buildQtWebKit | apply keeps_buildPhantomJS | emit ].
Qed.

Lemma keeps_parseArguments : keeps P o (@parseArguments W).
Proof. unfold parseArguments. repeat emit. Qed.

End Methods.

(** ** Executable lookup and the construction of the builder *)

Section Lookup.

Context {W : Type} (os : @Host W).
Implicit Types (s : @State W).

Lemma which_loop_returns program paths s :
  exists r,
    which_loop os program paths s = ([], s, Return r) /\
    (forall p, r = Some p ->
       isfile os (world s) p && access_X_OK os (world s) p = true).
Proof.
  induction paths as [| path rest IH]; cbn [which_loop].
  - exists None. split; [reflexivity | discriminate].
  - unfold bind, isExe, ask.
    destruct (isfile os (world s) (path_join os path program)
              && access_X_OK os (world s) (path_join os path program)) eqn:E.
    + exists (Some (path_join os path program)). split; [reflexivity |].
      intros p [= <-]. exact E.
    + destruct IH as [r [E1 E2]]. exists r. rewrite E1. split; [reflexivity | exact E2].
Qed.

(** [which] looks, and changes nothing, whatever comes out of it. *)
Lemma which_frame program s :
  exists r, which os program s = ([], s, r).
Proof.
  unfold which, bind, isExe, ask.
  destruct (isfile os (world s) program && access_X_OK os (world s) program).
  - eexists; reflexivity.
  - destruct (environ os "PATH") as [PATH |].
    + destruct (which_loop_returns program (Py.split (pathsep os) PATH) s) as [r [E _]].
      rewrite E. eexists; reflexivity.
    + eexists; reflexivity.
Qed.

(** [__init__] emits nothing; when it returns, the options object has
    [skip_git] forced to true if there is no [.git] directory, and is
    otherwise as before. *)
Lemma init_frame s :
  exists r,
    __init__ os s =
      ([],
       match r with
       | Return _ =>
           if isdir os (world s) ".git" then s else with_options (set_skip_git true) s
       | Raise _ => s
       end,
       r).
Proof.
  unfold __init__.
  destruct (system os =? "Windows").
  - unfold bind at 1. unfold bind at 1.
    destruct (which_frame "jom.exe" s) as [r E]. rewrite E.
    destruct r as [makeExe | e]; [| exists (Raise e); reflexivity].
    unfold bind, ret, ask, modify_options. cbn.
    destruct (isdir os (world s) ".git"); cbn; eexists (Return _); reflexivity.
  - unfold bind, ret, ask, modify_options, get_options. cbn.
    destruct (isdir os (world s) ".git"); cbn; eexists (Return _); reflexivity.
Qed.

End Lookup.

(** ** Invariants of a whole run *)

Section Run.

Context {W : Type} (os : @Host W).
Variables (I : Options -> Prop) (P : Event -> Prop).
Hypothesis I_skip_git : forall o, I o -> I (set_skip_git true o).
Hypothesis P_other : forall e, not_Popen e -> P e.
Hypothesis P_Popen : forall o, I o -> dry_run o = false -> forall command cwd, P (Popen command cwd).

Lemma invariant_of_keeps {A} (m : @M W A) :
  (forall o, I o -> keeps P o m) -> invariant I P m.
Proof.
  intros H s Is. destruct (H (options s) Is s eq_refl) as [F E].
  split; [exact F | rewrite E; exact Is].
Qed.

Lemma invariant_bind {A B} (m : @M W A) (k : A -> @M W B) :
  invariant I P m -> (forall a, invariant I P (k a)) -> invariant I P (bind m k).
Proof.
  intros Hm Hk s Is. destruct (Hm s Is) as [F1 I1].
  destruct (m s) as [[t1 s1] [a | e]] eqn:Em.
  - rewrite (bind_Return _ _ _ _ _ _ Em). cbn [events final fst snd] in *.
    destruct (Hk a s1 I1) as [F2 I2]. split; [apply Forall_app; split; assumption | exact I2].
  - rewrite (bind_Raise _ _ _ _ _ _ Em). split; assumption.
Qed.

Lemma invariant_try {A} (body : @M W A) (handler : string -> @M W A) :
  invariant I P body -> (forall msg, invariant I P (handler msg)) ->
  invariant I P (try_except_RuntimeError body handler).
Proof.
  intros Hb Hh s Is. unfold try_except_RuntimeError.
  destruct (Hb s Is) as [F1 I1].
  destruct (body s) as [[t1 s1] [a | e]]; [split; assumption |].
  destruct e; try (split; assumption).
  cbn [events final fst snd] in *.
  destruct (Hh msg s1 I1) as [F2 I2].
  destruct (handler msg s1) as [[t2 s2] r]. cbn [events final fst snd] in *.
  split; [apply Forall_app; split; assumption | exact I2].
Qed.

Lemma invariant_init : invariant I P (__init__ os).
Proof.
  intros s Is. destruct (init_frame os s) as [r E]. rewrite E.
  cbn [events final fst snd]. split; [constructor |].
  destruct r; [| exact Is].
  destruct (isdir os (world s) ".git"); [exact Is | apply I_skip_git; exact Is].
Qed.

Lemma invariant_main : invariant I P (main os).
Proof.
  unfold main. apply invariant_try.
  - apply invariant_bind.
    { apply invariant_of_keeps. intros o Io. apply keeps_parseArguments. }
    intros _. apply invariant_bind.
    { apply invariant_of_keeps. intros o Io s E. split; [constructor | exact E]. }
    intros o. apply invariant_bind.
    { apply invariant_of_keeps. intros o' Io'.
      destruct (negb (confirm o)); [| apply keeps_ret].
      apply keeps_bind; [apply keeps_tell; apply P_other; exact Logic.I |].
      intros _. apply keeps_confirmation; apply P_other; exact Logic.I. }
    intros [|].
    + apply invariant_bind; [apply invariant_init |].
      intros builder. apply invariant_of_keeps. intros o' Io'.
      apply keeps_run; [exact P_other | exact (P_Popen o' Io')].
    + apply invariant_of_keeps. intros o' Io'. apply keeps_ret.
  - intros msg. apply invariant_of_keeps. intros o Io.
    apply keeps_bind; [apply keeps_tell; apply P_other; exact Logic.I |].
    intros _. apply keeps_raise.
Qed.

End Run.

(** With [--dry-run], no run calls [Popen]. *)
Lemma dry_run_never_calls_Popen {W} (os : @Host W) (s : State) :
  dry_run (options s) = true -> Forall not_Popen (events (main os s)).
Proof.
  intros D.
  apply (invariant_main os (fun o => dry_run o = true) not_Popen); auto.
  intros o Ho Hf. congruence.
Qed.

(** ** The mode flags (C1) *)

(** C1.  Whenever the options have both [debug] and [release] set,
    [main] fails in [parseArguments]: the only event of the whole run is the
    error message on standard error, so no command is previewed or started,
    and the process ends with [sys.exit(1)]. *)
Theorem both_modes_rejected_before_any_command {W} (os : @Host W) (s : State) :
  debug (options s) = true ->
  release (options s) = true ->
  main os s =
    ([StderrWrite
        (Py.nl ++ "ERROR: Failed to build PhantomJS! "
           ++ "Cannot build with both debug and release mode enabled." ++ Py.nl)%string],
     s, Raise (SystemExit 1))
  /\ filter is_invocation (events (main os s)) = []
  /\ exit_status (outcome (main os s)) = 1%Z.
Proof.
  intros D R.
  assert (E : main os s =
    ([StderrWrite
        (Py.nl ++ "ERROR: Failed to build PhantomJS! "
           ++ "Cannot build with both debug and release mode enabled." ++ Py.nl)%string],
     s, Raise (SystemExit 1))).
  { unfold main, try_except_RuntimeError, parseArguments, bind, get_options.
    rewrite D, R. reflexivity. }
  rewrite E. repeat split.
Qed.

Lemma both_modes_rejected_witness :
  debug (options (Static.start Static.both_modes)) = true /\
  release (options (Static.start Static.both_modes)) = true /\
  exit_status (outcome (main Static.linux (Static.start Static.both_modes))) = 1%Z.
Proof.
  split; [reflexivity | split; [reflexivity |]].
  apply (both_modes_rejected_before_any_command Static.linux (Static.start Static.both_modes));
    reflexivity.
Defined.

(** ** Dry run (C2) *)

(** C2.  [build.py --confirm --dry-run] on a Linux checkout: the run goes
    through [subprocess.call(..., shell=True)] five times (two [rm] in
    buildQtBase, [rm -rf] and two [cp] in buildQtWebKit), which [execute]
    and its dry-run test never see; eight commands are previewed, while the
    same run without [--dry-run] starts thirteen processes. *)
Theorem dry_run_still_runs_shell_commands :
  filter is_spawn (events (main Static.linux (Static.start Static.dry))) =
    [ShellCall "rm /src/phantomjs/src/qt/qtbase/lib/libQt5WebKit*";
     ShellCall "rm /src/phantomjs/src/qt/qtbase/mkspecs/modules/qt_lib_webkit*";
     ShellCall "rm -rf /src/phantomjs/src/qt/qtwebkit";
     ShellCall "cp /src/phantomjs/src/qt/qtwebkit/lib/libQt5WebKit* /src/phantomjs/src/qt/qtbase/lib";
     ShellCall "cp /src/phantomjs/src/qt/qtwebkit/mkspecs/modules/qt_lib_webkit* /src/phantomjs/src/qt/qtbase/mkspecs/modules"]
  /\ List.length (filter is_echo (events (main Static.linux (Static.start Static.dry)))) = 8
  /\ List.length (filter is_spawn (events (main Static.linux (Static.start Static.confirmed)))) = 13.
Proof. vm_compute. repeat split. Qed.

(** ** The make command (C6) *)

(** Where the pattern matches at the start, it matches somewhere. *)
Lemma search_of_matches (r : Re.regex) (s : string) :
  search r s = false -> Re.matches r s = false.
Proof.
  destruct s; cbn [search]; intros H; apply orb_false_iff in H; exact (proj1 H).
Qed.

(** C6, as amended.  Off Windows, [__init__] returns a builder whose make
    command is [make -j N] for an explicit job count [N] other than zero.
    Without a job count, or with [--jobs 0], it is [make -j CPUS] when
    MAKEFLAGS contains no [-j\s*[0-9]+] at all, and plain [make] when
    MAKEFLAGS begins with one.  Nothing is said of a MAKEFLAGS that has a
    job count only further on: there the [re.match] of the code and its
    comment ("does not contain any -j N") part ways. *)
Theorem make_command_off_windows {W} (os : @Host W) (s : State) :
  system os <> "Windows" ->
  exists command,
    outcome (__init__ os s) = Return (mkBuilder command) /\
    (forall n, jobs (options s) = Some n -> n <> 0%Z ->
       command = [Py.Str "make"; Py.Str "-j"; Py.Int n]) /\
    (jobs (options s) = None \/ jobs (options s) = Some 0%Z ->
       (search Re.jobs_pattern (getenv os "MAKEFLAGS" EmptyString) = false ->
        command = [Py.Str "make"; Py.Str "-j"; Py.Int (cpu_count os)]) /\
       (Re.matches Re.jobs_pattern (getenv os "MAKEFLAGS" EmptyString) = true ->
        command = [Py.Str "make"])).
Proof.
  intros NW. apply String.eqb_neq in NW.
  unfold __init__. rewrite NW.
  unfold bind, ret, ask, modify_options, get_options, outcome. cbn.
  eexists. split.
  - destruct (isdir os (world s) ".git"); cbn; reflexivity.
  - split.
    + intros n -> N0. cbn. apply Z.eqb_neq in N0. rewrite N0. reflexivity.
    + intros [-> | ->]; cbn; (split; intros H;
        [apply search_of_matches in H |]; rewrite H; reflexivity).
Qed.

Lemma make_command_off_windows_witness :
  system Static.linux_makeflags <> "Windows" /\
  outcome (__init__ Static.linux_makeflags (Static.start Static.three_jobs))
    = Return (mkBuilder [Py.Str "make"; Py.Str "-j"; Py.Int 3]) /\
  outcome (__init__ Static.linux_makeflags (Static.start Static.no_arguments))
    = Return (mkBuilder [Py.Str "make"]) /\
  outcome (__init__ Static.linux (Static.start Static.no_arguments))
    = Return (mkBuilder [Py.Str "make"; Py.Str "-j"; Py.Int 8]).
Proof.
  split; [discriminate |].
  split; [| split].
  - destruct (make_command_off_windows Static.linux_makeflags (Static.start Static.three_jobs))
      as [command [E [J _]]]; [discriminate |].
    rewrite E. rewrite (J 3%Z); [reflexivity | reflexivity | discriminate].
  - destruct (make_command_off_windows Static.linux_makeflags
                (Static.start Static.no_arguments))
      as [command [E [_ K]]]; [discriminate |].
    destruct (K (or_introl eq_refl)) as [_ begins].
    rewrite E, (begins eq_refl). reflexivity.
  - destruct (make_command_off_windows Static.linux (Static.start Static.no_arguments))
      as [command [E [_ K]]]; [discriminate |].
    destruct (K (or_introl eq_refl)) as [nowhere _].
    rewrite E, (nowhere eq_refl). reflexivity.
Defined.

(** C6 fails as stated: with [--jobs 0] and [MAKEFLAGS=-j4] the explicit job
    count is not used, the command is plain [make]. *)
Lemma zero_jobs_is_not_explicit :
  jobs Static.zero_jobs = Some 0%Z /\
  outcome (__init__ Static.linux_makeflags (Static.start Static.zero_jobs))
    = Return (mkBuilder [Py.Str "make"]).
Proof. split; reflexivity. Qed.

(** ** Executable lookup (C8) *)

(** C8, as the code has it.  When PATH is set, [which] returns, emits
    nothing and changes nothing, and what it returns is "not found" or a
    path that is a file and executable.  When PATH is not set and the
    program is not itself an executable file, [which] raises [KeyError]. *)
Theorem which_returns_when_PATH_is_set {W} (os : @Host W) (program : string) (s : State) :
  (environ os "PATH" <> None ->
   exists r,
     which os program s = ([], s, Return r) /\
     (forall p, r = Some p ->
        isfile os (world s) p && access_X_OK os (world s) p = true)) /\
  (environ os "PATH" = None ->
   isfile os (world s) program && access_X_OK os (world s) program = false ->
   which os program s = ([], s, Raise (KeyError "PATH"))).
Proof.
  split.
  - intros HP. unfold which, bind, isExe, ask.
    destruct (isfile os (world s) program && access_X_OK os (world s) program) eqn:E.
    + exists (Some program). split; [reflexivity |]. intros p [= <-]. exact E.
    + destruct (environ os "PATH") as [PATH |]; [| contradiction HP; reflexivity].
      destruct (which_loop_returns os program (Py.split (pathsep os) PATH) s) as [r [E1 E2]].
      exists r. rewrite E1. split; [reflexivity | exact E2].
  - intros HP E. unfold which, bind, isExe, ask. rewrite E, HP. reflexivity.
Qed.

Lemma which_returns_witness :
  environ Static.linux "PATH" <> None /\
  exists r, which Static.linux "jom.exe" (Static.start Static.no_arguments)
            = ([], Static.start Static.no_arguments, Return r).
Proof.
  split; [discriminate |].
  destruct (which_returns_when_PATH_is_set Static.linux "jom.exe" (Static.start Static.no_arguments))
    as [P _].
  destruct P as [r [E _]]; [discriminate |].
  exists r. exact E.
Defined.

(** C8 fails as stated: without PATH in the environment, the lookup of a
    program that is not itself an executable file raises [KeyError]. *)
Lemma which_raises_without_PATH :
  environ Static.windows_no_path "PATH" = None /\
  which Static.windows_no_path "jom.exe" (Static.start Static.no_arguments)
    = ([], Static.start Static.no_arguments, Raise (KeyError "PATH")).
Proof. split; reflexivity. Qed.

(** ** The options object (C9) *)

Section OptionsObject.

Context {W : Type} (os : @Host W).

Lemma main_options (s : @State W) :
  options (final (main os s)) = options s \/
  options (final (main os s)) = set_skip_git true (options s).
Proof.
  refine (proj2 (invariant_main os
    (fun o => o = options s \/ o = set_skip_git true (options s)) (fun _ => True)
    _ _ _ s (or_introl eq_refl))).
  - intros o [-> | ->]; right; reflexivity.
  - intros; exact I.
  - intros; exact I.
Qed.

End OptionsObject.

(** C9, as the code has it.  The options object is assigned to in one
    place: [__init__] sets [skip_git] to true when there is no [.git]
    directory.  Parsing, the confirmation dialogue and every method of the
    builder leave every field as it is, so that after a run the options are
    those parsed, up to [skip_git] forced to true. *)
Theorem options_assigned_only_by_init {W} (os : @Host W) :
  (forall s,
     options (final (__init__ os s)) =
       match outcome (__init__ os s) with
       | Return _ =>
           if isdir os (world s) ".git" then options s
           else set_skip_git true (options s)
       | Raise _ => options s
       end) /\
  preserves_options (@parseArguments W) /\
  preserves_options (@confirmation W) /\
  (forall command workingDirectory, preserves_options (execute os command workingDirectory)) /\
  (forall path, preserves_options (gitClean os path)) /\
  (forall self path, preserves_options (make os self path)) /\
  (forall path options, preserves_options (qmake os path options)) /\
  preserves_options (platformQtConfigureOptions os) /\
  preserves_options (configureQtBase os) /\
  (forall self, preserves_options (buildQtBase os self)) /\
  (forall self, preserves_options (buildQtWebKit os self)) /\
  (forall self, preserves_options (buildPhantomJS os self)) /\
  preserves_options (ensureSubmodulesAvailable os) /\
  (forall self, preserves_options (run os self)) /\
  (forall s,
     options (final (main os s)) = options s \/
     options (final (main os s)) = set_skip_git true (options s)).
Proof.
  split.
  { intros s. destruct (init_frame os s) as [r E]. rewrite E.
    cbn [final outcome fst snd]. destruct r; [| reflexivity].
    destruct (isdir os (world s) ".git"); reflexivity. }
  repeat split; intros; try apply main_options; apply keeps_preserves; intros o.
  - apply keeps_parseArguments.
  - apply keeps_confirmation; exact I.
  - apply keeps_execute; intros; exact I.
  - apply keeps_gitClean; intros; exact I.
  - apply keeps_make; intros; exact I.
  - apply keeps_qmake; intros; exact I.
  - apply keeps_platformQtConfigureOptions; intros; exact I.
  - apply keeps_configureQtBase; intros; exact I.
  - apply keeps_buildQtBase; intros; exact I.
  - apply keeps_buildQtWebKit; intros; exact I.
  - apply keeps_buildPhantomJS; intros; exact I.
  - apply keeps_ensureSubmodulesAvailable; intros; exact I.
  - apply keeps_run; intros; exact I.
Qed.

(** C9 fails as stated: in a source tree without [.git], a run started
    with [skip_git] false ends with [skip_git] true. *)
Lemma init_assigns_skip_git :
  skip_git (options (Static.start Static.dry)) = false /\
  skip_git (options (final (__init__ Static.linux_tarball (Static.start Static.dry)))) = true /\
  skip_git (options (final (main Static.linux_tarball (Static.start Static.dry)))) = true.
Proof. vm_compute. repeat split. Qed.

(** ** Skip flags (C3) *)

Section Skips.

Context {W : Type} (os : @Host W).
Implicit Types (s : @State W).

Lemma map_str_Str (l : list string) : map Py.str (map Py.Str l) = l.
Proof. induction l as [| x l IH]; cbn; [reflexivity | rewrite IH; reflexivity]. Qed.

(** With [--skip-configure-qtbase] and without [--git-clean-qtbase],
    buildQtBase invokes the two removals and make, nothing else. *)
Lemma buildQtBase_without_configure self s :
  skip_qtbase (options s) = false ->
  skip_configure_qtbase (options s) = true ->
  git_clean_qtbase (options s) = false ->
  filter is_invocation (events (buildQtBase os self s)) =
    ShellCall (Py.join " " ["rm"; abspath os "src/qt/qtbase/lib/libQt5WebKit*"])
      :: ShellCall (Py.join " " ["rm"; abspath os "src/qt/qtbase/mkspecs/modules/qt_lib_webkit*"])
      :: Echo (abspath os "src/qt/qtbase") (map Py.str (makeCommand self))
      :: (if dry_run (options s) then []
          else [Popen (map Py.str (makeCommand self)) (abspath os "src/qt/qtbase")]).
Proof.
  intros H1 H2 H3.
  unfold buildQtBase, make, execute, bind, get_options, subprocess_call_shell, print, tell, ret,
    Popen_wait, events.
  cbn. rewrite H1, H2, H3. cbn.
  destruct (dry_run (options s)); [reflexivity |].
  destruct (popen_wait os _ _ _) as [w [rc |]]; [| reflexivity].
  cbn. destruct (negb (rc =? 0)%Z); reflexivity.
Qed.

End Skips.

(** C3, as the code has it.  With [skip_qtbase] the base stage invokes
    nothing, with [skip_qtwebkit] the engine stage invokes nothing, with
    [skip_git] neither the submodule stage nor any git clean invokes
    anything; with [skip_configure_qtbase] the base stage invokes the two
    removals and make but no configure, provided [git_clean_qtbase] is off.
    Each holds for every host, every state of the world and every value of
    the other options. *)
Theorem skip_flags_suppress_their_commands {W} (os : @Host W) (self : PhantomJSBuilder)
    (s : State) :
  (skip_qtbase (options s) = true ->
     filter is_invocation (events (buildQtBase os self s)) = []) /\
  (skip_qtwebkit (options s) = true ->
     filter is_invocation (events (buildQtWebKit os self s)) = []) /\
  (skip_git (options s) = true ->
     events (ensureSubmodulesAvailable os s) = [] /\
     forall path, events (gitClean os path s) = []) /\
  (skip_configure_qtbase (options s) = true ->
   git_clean_qtbase (options s) = false ->
     filter is_invocation (events (buildQtBase os self s)) =
       if skip_qtbase (options s) then []
       else
         ShellCall (Py.join " " ["rm"; abspath os "src/qt/qtbase/lib/libQt5WebKit*"])
           :: ShellCall
                (Py.join " " ["rm"; abspath os "src/qt/qtbase/mkspecs/modules/qt_lib_webkit*"])
           :: Echo (abspath os "src/qt/qtbase") (map Py.str (makeCommand self))
           :: (if dry_run (options s) then []
               else [Popen (map Py.str (makeCommand self)) (abspath os "src/qt/qtbase")])).
Proof.
  assert (B : skip_qtbase (options s) = true ->
              filter is_invocation (events (buildQtBase os self s)) = []).
  { intros H. unfold buildQtBase, bind, get_options. rewrite H. reflexivity. }
  split; [exact B |]. split; [| split; [intros H; split |]].
  - intros H. unfold buildQtWebKit, bind, get_options. rewrite H. reflexivity.
  - unfold ensureSubmodulesAvailable, bind, get_options. rewrite H. reflexivity.
  - intros path. unfold gitClean, bind, get_options. rewrite H. reflexivity.
  - intros H1 H2. destruct (skip_qtbase (options s)) eqn:E.
    + apply B. reflexivity.
    + apply buildQtBase_without_configure; assumption.
Qed.

Lemma skip_flags_witness :
  let s := Static.start Static.all_skipped in
  skip_qtbase (options s) = true /\
  skip_qtwebkit (options s) = true /\
  skip_git (options s) = true /\
  skip_configure_qtbase (options s) = true /\
  git_clean_qtbase (options s) = false /\
  filter is_invocation (events (buildQtBase Static.linux (mkBuilder [Py.Str "make"]) s)) = [] /\
  filter is_invocation (events (buildQtWebKit Static.linux (mkBuilder [Py.Str "make"]) s)) = [] /\
  events (ensureSubmodulesAvailable Static.linux s) = [].
Proof.
  intros s.
  destruct (skip_flags_suppress_their_commands Static.linux (mkBuilder [Py.Str "make"]) s)
    as [B [K [G C]]].
  do 5 (split; [reflexivity |]).
  split; [exact (C eq_refl eq_refl) |].
  split; [apply K; reflexivity |].
  clear C. apply G. reflexivity.
Defined.

(** C3 fails as stated: with [--skip-configure-qtbase] and
    [--git-clean-qtbase], the configure script of the base layer is started
    all the same. *)
Lemma git_clean_overrides_skip_configure :
  skip_configure_qtbase Static.clean_skip_configure = true /\
  existsb (runs_program "/src/phantomjs/src/qt/qtbase/configure")
    (filter is_spawn
       (events (main Static.linux (Static.start Static.clean_skip_configure)))) = true.
Proof. vm_compute. split; reflexivity. Qed.

(** ** The configure command (C4, C10) *)

Section Configure.

Context {W : Type} (os : @Host W).
Implicit Types (s : @State W).

Lemma bind_get {A} (k : Options -> @M W A) s :
  bind get_options k s = k (options s) s.
Proof.
  unfold bind, get_options. destruct (k (options s) s) as [[t2 s2] r]. reflexivity.
Qed.

Lemma reads_ret {A} (a : A) : reads_world (@ret W A a).
Proof. intros s1 s2 _. repeat split. Qed.

Lemma reads_raise {A} e : reads_world (@raise W A e).
Proof. intros s1 s2 _. repeat split. Qed.

Lemma reads_tell e : reads_world (@tell W e).
Proof. intros s1 s2 _. repeat split. Qed.

Lemma reads_ask {A} (q : W -> A) : reads_world (ask q).
Proof. intros s1 s2 Hw. unfold ask, final, events, outcome. cbn. rewrite Hw. repeat split. Qed.

Lemma reads_bind {A B} (m : @M W A) (k : A -> @M W B) :
  reads_world m -> (forall a, reads_world (k a)) -> reads_world (bind m k).
Proof.
  intros Hm Hk s1 s2 Hw.
  destruct (Hm s1 s2 Hw) as [F1 [T1 R1]].
  destruct (Hm s2 s2 eq_refl) as [F2 _].
  destruct (m s1) as [[t1 f1] r1] eqn:E1. destruct (m s2) as [[t2 f2] r2] eqn:E2.
  cbn [final events outcome fst snd] in *. subst f1 f2 t2 r2.
  destruct r1 as [a | e].
  - rewrite (bind_Return _ _ _ _ _ _ E1), (bind_Return _ _ _ _ _ _ E2).
    destruct (Hk a s1 s2 Hw) as [F [T R]].
    cbn [final events outcome fst snd]. rewrite F, T, R. repeat split.
  - rewrite (bind_Raise _ _ _ _ _ _ E1), (bind_Raise _ _ _ _ _ _ E2). repeat split.
Qed.

Ltac reads_step :=
  lazymatch goal with
  | |- reads_world (bind _ _) => apply reads_bind; [| intros ?]
  | |- reads_world (ret _) => apply reads_ret
  | |- reads_world (raise _) => apply reads_raise
  | |- reads_world (tell _) => apply reads_tell
  | |- reads_world (print _) => apply reads_tell
  | |- reads_world (ask _) => apply reads_ask
  | |- reads_world (exists_ _ _) => unfold exists_
  | |- reads_world (read_local _ ?v) => destruct v; cbn [read_local]
  | |- reads_world (if ?b then _ else _) => destruct b
  | |- reads_world (match ?x with _ => _ end) => destruct x
  end.

(** The search loop reads the file system only. *)
Lemma reads_openssl_search paths : forall found platformOptions,
  reads_world (openssl_search os paths found platformOptions).
Proof.
  induction paths as [| search_path rest IH]; intros; cbn [openssl_search].
  - apply reads_ret.
  - repeat first [ apply IH | reads_step ].
Qed.

(** [platformQtConfigureOptions] changes nothing and reads the file system
    and the [silent] flag only. *)
Lemma platformQtConfigureOptions_reads s1 s2 :
  world s1 = world s2 ->
  silent (options s1) = silent (options s2) ->
  final (platformQtConfigureOptions os s1) = s1 /\
  events (platformQtConfigureOptions os s1) = events (platformQtConfigureOptions os s2) /\
  outcome (platformQtConfigureOptions os s1) = outcome (platformQtConfigureOptions os s2).
Proof.
  intros Hw Hs. unfold platformQtConfigureOptions.
  destruct (system os =? "Windows"); [repeat split |].
  rewrite !bind_get. cbv zeta. rewrite Hs.
  match goal with
  | |- final (?m s1) = s1 /\ _ => assert (R : reads_world m)
  end.
  { repeat first [ apply reads_openssl_search | reads_step ]. }
  exact (R s1 s2 Hw).
Qed.

(** The command built by [configureQtBase] is the command built without
    any [--qt-config], with the user's tokens inserted just before the
    final mode flag. *)
Lemma configure_command_shape s configure :
  outcome (configureQtBase_command os s) = Return configure ->
  exists computed,
    outcome (configureQtBase_command os (with_options (set_qt_config None) s))
      = Return (computed ++ [mode_flag (options s)]) /\
    configure = computed ++ qt_config_tokens (options s) ++ [mode_flag (options s)].
Proof.
  set (s' := with_options (set_qt_config None) s).
  destruct (platformQtConfigureOptions_reads s s' eq_refl eq_refl) as [F [T R]].
  destruct (platformQtConfigureOptions_reads s' s' eq_refl eq_refl) as [F' _].
  unfold configureQtBase_command. cbv zeta.
  destruct (platformQtConfigureOptions os s) as [[t1 f1] r1] eqn:E1.
  destruct (platformQtConfigureOptions os s') as [[t2 f2] r2] eqn:E2.
  cbn [final events outcome fst snd] in F, T, R, F'. subst f1 f2 t2 r2.
  destruct r1 as [platformOptions | e].
  - rewrite (bind_Return _ _ _ _ _ _ E1), (bind_Return _ _ _ _ _ _ E2), !bind_get.
    match goal with
    | |- context [?fixed ++ platformOptions] =>
        set (base := fixed ++ platformOptions); clearbody base
    end.
    unfold ret, outcome, qt_config_tokens, mode_flag. cbn [snd fst options with_options s'].
    cbn [set_qt_config qt_config debug release Py.truthy_list].
    intros [= <-].
    destruct (debug (options s)); [| destruct (release (options s))];
      (eexists; split; [reflexivity |]);
      (destruct (Py.truthy_list (qt_config (options s)));
         [exact (eq_sym (app_assoc _ _ _)) | reflexivity]).
  - rewrite (bind_Raise _ _ _ _ _ _ E1). cbn. discriminate.
Qed.

(** [configureQtBase] previews the command it has built. *)
Lemma configureQtBase_previews s configure :
  outcome (configureQtBase_command os s) = Return configure ->
  In (Echo (abspath os "src/qt/qtbase") configure) (events (configureQtBase os s)).
Proof.
  intros H. unfold configureQtBase.
  destruct (configureQtBase_command os s) as [[t1 s1] r1] eqn:E1.
  cbn [outcome snd] in H. subst r1.
  unfold bind at 1. unfold print, tell at 1.
  rewrite (bind_Return _ _ _ _ _ _ E1). cbn [events final outcome fst snd app].
  right. apply in_or_app. right.
  unfold bind at 1. unfold execute. unfold bind at 1. unfold tell at 1.
  rewrite map_str_Str.
  destruct (bind get_options _ s1) as [[t2 s2] [rc | e]]; cbn.
  - destruct (if negb (rc =? 0)%Z then _ else _) as [[t3 s3] r3]. cbn. left. reflexivity.
  - left. reflexivity.
Qed.

Lemma split_free c (text : string) : free_of c text = true -> Py.split c text = [text].
Proof.
  induction text as [| d r IH]; cbn; [reflexivity |].
  intros H. apply andb_prop in H as [H1 H2]. apply negb_true_iff in H1.
  rewrite H1, (IH H2). reflexivity.
Qed.

Lemma free_of_app c a b :
  free_of c a = true -> free_of c b = true -> free_of c (a ++ b)%string = true.
Proof.
  induction a as [| d r IH]; cbn; [intros _ H; exact H |].
  intros H Hb. apply andb_prop in H as [H1 H2].
  rewrite H1, (IH H2 Hb). reflexivity.
Qed.

(** [qmake] previews the qmake path followed by the user's arguments, or
    raises before any event when qmake is missing and the run is real. *)
Lemma qmake_previews path stage s :
  filter is_echo (events (qmake os path stage s)) =
    if negb (isfile os (world s) (qmakePath os) && access_X_OK os (world s) (qmakePath os))
       && negb (dry_run (options s))
    then []
    else [Echo (abspath os path)
            (qmakePath os :: Py.elems (qmake_args (options s)) ++ Py.elems stage)].
Proof.
  unfold qmake, bind at 1 2, isExe, ask, get_options. cbn.
  destruct (negb _ && negb _); [reflexivity |].
  unfold execute, bind, tell, get_options, ret, Popen_wait, events.
  destruct (qmake_args (options s)) as [[| a l] |]; destruct stage as [[| b m] |];
    cbn; rewrite ?map_app, ?map_str_Str, ?app_nil_r;
    (destruct (dry_run (options s)); [reflexivity |]);
    (destruct (popen_wait os _ _ (world s)) as [w [rc |]]; reflexivity).
Qed.

End Configure.

(** C4, as the code has it.  The configure command of the base layer is
    the command computed without [--qt-config], with the user's tokens
    inserted after every computed flag except the mode flag ([-debug] or
    [-release]), which stays last; that command is the one previewed.  A
    qmake command is the qmake path followed by [--qmake-args] and then the
    arguments of the stage, nothing computed after them. *)
Theorem user_flags_follow_all_but_the_mode_flag {W} (os : @Host W) (s : State) :
  (forall configure,
     outcome (configureQtBase_command os s) = Return configure ->
     exists computed,
       outcome (configureQtBase_command os (with_options (set_qt_config None) s))
         = Return (computed ++ [mode_flag (options s)]) /\
       configure = computed ++ qt_config_tokens (options s) ++ [mode_flag (options s)] /\
       In (Echo (abspath os "src/qt/qtbase") configure) (events (configureQtBase os s))) /\
  (forall path stage,
     filter is_echo (events (qmake os path stage s)) =
       if negb (isfile os (world s) (qmakePath os) && access_X_OK os (world s) (qmakePath os))
          && negb (dry_run (options s))
       then []
       else [Echo (abspath os path)
               (qmakePath os :: Py.elems (qmake_args (options s)) ++ Py.elems stage)]).
Proof.
  split.
  - intros configure H.
    destruct (configure_command_shape os s configure H) as [computed [E1 E2]].
    exists computed. split; [exact E1 | split; [exact E2 |]].
    apply configureQtBase_previews. exact H.
  - intros path stage. apply qmake_previews.
Qed.

Lemma user_flags_witness :
  exists configure computed,
    outcome (configureQtBase_command Static.linux (Static.start Static.one_qt_config))
      = Return configure /\
    configure = computed ++ ["-foo"] ++ ["-release"].
Proof.
  eexists.
  destruct (user_flags_follow_all_but_the_mode_flag Static.linux
              (Static.start Static.one_qt_config)) as [C _].
  destruct (C _ eq_refl) as [computed [_ [E _]]].
  exists computed. split; [reflexivity | exact E].
Defined.

(** C4 fails as stated: with [--qt-config=-foo] the computed flag
    [-release] comes after the user's flag. *)
Lemma mode_flag_follows_user_flags :
  qt_config_tokens Static.one_qt_config = ["-foo"] /\
  exists configure,
    outcome (configureQtBase_command Static.linux (Static.start Static.one_qt_config))
      = Return configure /\
    skipn (List.length configure - 2) configure = ["-foo"; "-release"].
Proof.
  split; [reflexivity |].
  eexists. split; [vm_compute; reflexivity | vm_compute; reflexivity].
Qed.

(** C10.  When [--qt-config] is given twice with values free of spaces,
    the two values reach the configure command of the base layer as the
    single token made of the first followed at once by the second: the
    command is the one computed without [--qt-config] with that one token
    inserted before the mode flag, and it is the command previewed. *)
Theorem repeated_qt_config_values_are_merged {W} (os : @Host W) (s : State)
    (v1 v2 : string) (configure : list string) :
  qt_config (options s) = Some [v1; v2] ->
  free_of " " v1 = true ->
  free_of " " v2 = true ->
  outcome (configureQtBase_command os s) = Return configure ->
  qt_config_tokens (options s) = [(v1 ++ v2)%string] /\
  (exists computed,
     outcome (configureQtBase_command os (with_options (set_qt_config None) s))
       = Return (computed ++ [mode_flag (options s)]) /\
     configure = computed ++ [(v1 ++ v2)%string; mode_flag (options s)]) /\
  In (Echo (abspath os "src/qt/qtbase") configure) (events (configureQtBase os s)).
Proof.
  intros Q F1 F2 H.
  assert (T : qt_config_tokens (options s) = [(v1 ++ v2)%string]).
  { unfold qt_config_tokens. rewrite Q. cbn.
    apply split_free. apply free_of_app; assumption. }
  split; [exact T | split].
  - destruct (configure_command_shape os s configure H) as [computed [E1 E2]].
    exists computed. split; [exact E1 |]. rewrite E2, T. reflexivity.
  - apply configureQtBase_previews. exact H.
Qed.

Lemma repeated_qt_config_witness :
  qt_config (options (Static.start Static.two_qt_config)) = Some ["-foo"; "-bar"] /\
  free_of " " "-foo" = true /\
  free_of " " "-bar" = true /\
  exists configure,
    outcome (configureQtBase_command Static.linux (Static.start Static.two_qt_config))
      = Return configure /\
    qt_config_tokens (options (Static.start Static.two_qt_config)) = ["-foo-bar"].
Proof.
  do 3 (split; [reflexivity |]).
  eexists. split; [reflexivity |].
  apply (repeated_qt_config_values_are_merged Static.linux (Static.start Static.two_qt_config)
           "-foo" "-bar" _ eq_refl eq_refl eq_refl eq_refl).
Defined.

(** ** OpenSSL discovery on Darwin (C5, C7) *)

(** C7, as the code has it.  On Darwin with [OPENSSL] unset or empty, the
    loop over the search list has no early exit: the header of every
    location is probed, in list order, and the flags of every location whose
    header exists are added, in list order, after the computed options; the
    error "Could not find OpenSSL" is raised exactly when no header exists. *)
Theorem darwin_search_adds_every_location_found {W} (os : @Host W) (s : State) :
  system os = "Darwin" ->
  getenv os "OPENSSL" EmptyString = EmptyString ->
  filter is_probe (events (platformQtConfigureOptions os s))
    = map (fun search_path => PathExists (header search_path)) openssl_search_paths /\
  outcome (platformQtConfigureOptions os s) =
    match filter (fun search_path => path_exists os (world s) (header search_path))
            openssl_search_paths with
    | [] => Raise (RuntimeError "Could not find OpenSSL")
    | found =>
        Return (unix_platformOptions
                  ++ (if silent (options s) then ["-silent"] else [])
                  ++ ["-no-pkg-config"]
                  ++ flat_map flags found)
    end.
Proof.
  intros on_darwin E. unfold platformQtConfigureOptions. rewrite on_darwin, E.
  cbn [String.eqb Ascii.eqb Bool.eqb].
  rewrite bind_get. cbv zeta.
  unfold openssl_search_paths.
  destruct (path_exists os (world s) "/usr/local/opt/openssl/include/openssl/opensslv.h") eqn:B;
    destruct (path_exists os (world s) "/opt/local/include/openssl/opensslv.h") eqn:M;
    destruct (silent (options s)) eqn:S;
    repeat (progress (unfold bind, exists_, tell, ask, print, ret, raise; cbn;
                      rewrite ?B, ?M, ?S));
    split; reflexivity.
Qed.

Lemma darwin_search_witness :
  system Static.darwin_both = "Darwin" /\
  getenv Static.darwin_both "OPENSSL" EmptyString = EmptyString /\
  filter is_probe (events (platformQtConfigureOptions Static.darwin_both (Static.start Static.dry)))
    = [PathExists "/usr/local/opt/openssl/include/openssl/opensslv.h";
       PathExists "/opt/local/include/openssl/opensslv.h"].
Proof.
  do 2 (split; [reflexivity |]).
  apply (darwin_search_adds_every_location_found Static.darwin_both (Static.start Static.dry));
    reflexivity.
Defined.

(** C7 fails as stated: when both Brew and MacPorts have the header, the
    flags of both locations are in the result. *)
Lemma both_locations_contribute_flags :
  environ Static.darwin_both "OPENSSL" = None /\
  outcome (platformQtConfigureOptions Static.darwin_both (Static.start Static.dry)) =
    Return (unix_platformOptions ++ ["-no-pkg-config"]
              ++ ["-I/usr/local/opt/openssl/include"; "-L/usr/local/opt/openssl/lib";
                  "-I/opt/local/include"; "-L/opt/local/lib"]).
Proof. split; vm_compute; reflexivity. Qed.

(** C5, as the code has it.  On Darwin with [OPENSSL] set to a non-empty
    path under which [include/openssl/opensslv.h] does not exist,
    [platformQtConfigureOptions] probes that header and nothing else (the
    search list is not consulted), and ends with an exception instead of an
    option list. *)
Theorem darwin_override_without_header_fails {W} (os : @Host W) (s : State)
    (openssl : string) :
  system os = "Darwin" ->
  environ os "OPENSSL" = Some openssl ->
  openssl <> EmptyString ->
  path_exists os (world s) (openssl ++ "/include/openssl/opensslv.h")%string = false ->
  events (platformQtConfigureOptions os s)
    = [PathExists (openssl ++ "/include/openssl/opensslv.h")%string] /\
  exists e, outcome (platformQtConfigureOptions os s) = Raise e.
Proof.
  intros on_darwin E N X. apply String.eqb_neq in N.
  unfold platformQtConfigureOptions, getenv. rewrite on_darwin, E, N.
  cbn [String.eqb Ascii.eqb Bool.eqb].
  rewrite bind_get. cbv zeta.
  unfold bind, exists_, tell, ask, print, ret, raise, read_local. cbn.
  rewrite X. cbn. split; [reflexivity | eexists; reflexivity].
Qed.

Lemma darwin_override_witness :
  system Static.darwin_override = "Darwin" /\
  environ Static.darwin_override "OPENSSL" = Some "/opt/ssl" /\
  "/opt/ssl" <> EmptyString /\
  events (platformQtConfigureOptions Static.darwin_override (Static.start Static.dry))
    = [PathExists "/opt/ssl/include/openssl/opensslv.h"].
Proof.
  do 2 (split; [reflexivity |]). split; [discriminate |].
  apply (darwin_override_without_header_fails Static.darwin_override (Static.start Static.dry)
           "/opt/ssl"); [reflexivity | reflexivity | discriminate | reflexivity].
Defined.

(** C5 fails as stated: the exception is [UnboundLocalError] for
    [openssl_found], which carries no path; it is no [RuntimeError], so
    [main] does not report it as a build failure. *)
Lemma override_failure_does_not_name_the_path :
  platformQtConfigureOptions Static.darwin_override (Static.start Static.dry)
    = ([PathExists "/opt/ssl/include/openssl/opensslv.h"],
       Static.start Static.dry,
       Raise (UnboundLocalError "openssl_found")) /\
  outcome (main Static.darwin_override (Static.start Static.dry))
    = Raise (UnboundLocalError "openssl_found") /\
  filter (fun e => match e with StderrWrite _ => true | _ => false end)
    (events (main Static.darwin_override (Static.start Static.dry))) = [].
Proof. repeat split; vm_compute; reflexivity. Qed.

(** * Further properties *)

(** ** Traces, frames and exceptions of the methods *)

Ltac split4 := split; [| split; [| split]].

Section Behaviour.

Context {W : Type}.
Variables (T : list Event -> Prop) (Q : Exception -> Prop).
Hypothesis T_nil : T [].
Hypothesis T_app : forall a b, T a -> T b -> T (a ++ b).
Hypothesis T_plain : forall e, plain e -> T [e].

Lemma T_of_plain t : Forall plain t -> T t.
Proof.
  induction 1 as [| e t He _ IH]; [exact T_nil |].
  change (T ([e] ++ t)). apply T_app; [apply T_plain; exact He | exact IH].
Qed.

Lemma behaves_ret {A} o (a : A) : behaves T Q o (@ret W A a).
Proof. intros s E. split4; [exact T_nil | exact E | reflexivity | discriminate]. Qed.

Lemma behaves_raise {A} o e : Q e -> behaves T Q o (@raise W A e).
Proof.
  intros H s E. split4; [exact T_nil | exact E | reflexivity |].
  intros e' [= <-]. exact H.
Qed.

Lemma behaves_tell o e : T [e] -> behaves T Q o (@tell W e).
Proof. intros H s E. split4; [exact H | exact E | reflexivity | discriminate]. Qed.

Lemma behaves_ask {A} o (q : W -> A) : behaves T Q o (ask q).
Proof. intros s E. split4; [exact T_nil | exact E | reflexivity | discriminate]. Qed.

Lemma behaves_bind {A B} o (m : @M W A) (k : A -> @M W B) :
  behaves T Q o m -> (forall a, behaves T Q o (k a)) -> behaves T Q o (bind m k).
Proof.
  intros Hm Hk s E. destruct (Hm s E) as [T1 [O1 [I1 Q1]]].
  destruct (m s) as [[t1 s1] [a | e]] eqn:Em; cbn [events final outcome fst snd] in *.
  - rewrite (bind_Return _ _ _ _ _ _ Em). cbn [events final outcome fst snd].
    destruct (Hk a s1 O1) as [T2 [O2 [I2 Q2]]].
    split4; [apply T_app; assumption | exact O2 | congruence | exact Q2].
  - rewrite (bind_Raise _ _ _ _ _ _ Em). cbn [events final outcome fst snd].
    split4; try assumption. intros e' [= <-]. apply Q1. reflexivity.
Qed.

Lemma behaves_get {A} o (k : Options -> @M W A) :
  behaves T Q o (k o) -> behaves T Q o (bind (@get_options W) k).
Proof.
  intros Hk s E. rewrite bind_get, E. exact (Hk s E).
Qed.

End Behaviour.

Ltac behaves_step :=
  lazymatch goal with
  | |- behaves _ _ _ (bind get_options _) => apply behaves_get; cbv beta
  | |- behaves _ _ _ (bind _ _) => apply behaves_bind; try assumption; [| intros ?]
  | |- behaves _ _ _ (ret _) => apply behaves_ret; assumption
  | |- behaves _ _ _ (ask _) => apply behaves_ask; assumption
  | |- behaves _ _ _ (if ?b then _ else _) => destruct b eqn:?
  | |- behaves _ _ _ (match ?x with _ => _ end) => destruct x eqn:?
  end.

Section Conduct.

Context {W : Type} (os : @Host W).
Variables (T : list Event -> Prop) (Q : Exception -> Prop) (o : Options).
Hypothesis T_nil : T [].
Hypothesis T_app : forall a b, T a -> T b -> T (a ++ b).
Hypothesis T_plain : forall e, plain e -> T [e].
Hypothesis T_exec : forall w c, T [Echo w c; Popen c w].
Hypothesis Q_RuntimeError :
  forall msg, In msg (failure_messages os) -> Q (RuntimeError msg).
Hypothesis Q_OSError : dry_run o = false -> Q OSError.
Hypothesis Q_UnboundLocalError :
  system os = "Darwin" -> getenv os "OPENSSL" EmptyString <> EmptyString ->
  Q (UnboundLocalError "openssl_found").
Hypothesis Q_ValueError : (exists line, shlex_split os line = None) -> Q ValueError.

Lemma behaves_execute command workingDirectory :
  behaves T Q o (execute os command workingDirectory).
Proof.
  intros s E. unfold execute, bind, tell, get_options, ret, Popen_wait.
  cbn. rewrite E. destruct (dry_run o) eqn:D; cbn.
  - split4; [apply T_plain; exact I | exact E | reflexivity | discriminate].
  - destruct (popen_wait os _ _ (world s)) as [w [rc |]]; cbn;
      (split4; [apply T_exec | exact E | reflexivity |]); [discriminate |].
    intros e [= <-]. apply Q_OSError. reflexivity.
Qed.

Lemma behaves_shell command : behaves T Q o (subprocess_call_shell os command).
Proof.
  intros s E. split4; [apply T_plain; exact I | exact E | reflexivity | discriminate].
Qed.

Lemma behaves_putenv k v : behaves T Q o (os_putenv os k v).
Proof.
  intros s E. split4; [apply T_plain; exact I | exact E | reflexivity | discriminate].
Qed.

Ltac conduct := first
  [ behaves_step
  | apply behaves_execute
  | apply behaves_shell
  | apply behaves_putenv
  | apply behaves_tell; apply T_plain; exact I
  | apply behaves_raise; try assumption; apply Q_RuntimeError; unfold failure_messages;
    repeat first [ left; reflexivity | right ] ].

Lemma behaves_print text : behaves T Q o (@print W text).
Proof. unfold print. conduct. Qed.

Lemma behaves_exists path : behaves T Q o (exists_ os path).
Proof. unfold exists_. repeat conduct. Qed.

Lemma behaves_isExe path : behaves T Q o (isExe os path).
Proof. unfold isExe. conduct. Qed.

Lemma behaves_gitClean path : behaves T Q o (gitClean os path).
Proof. unfold gitClean. repeat conduct. Qed.

Lemma behaves_make self path : behaves T Q o (make os self path).
Proof. unfold make. conduct. Qed.

Lemma behaves_qmake path options : behaves T Q o (qmake os path options).
Proof. unfold qmake. repeat first [ apply behaves_isExe | conduct ]. Qed.

Lemma behaves_openssl_search paths found platformOptions :
  behaves T Q o (openssl_search os paths found platformOptions).
Proof.
  revert found platformOptions.
  induction paths as [| search_path rest IH]; intros; cbn [openssl_search].
  - conduct.
  - repeat first [ apply IH | apply behaves_exists | apply behaves_print | conduct ].
Qed.

Lemma behaves_platformQtConfigureOptions :
  behaves T Q o (platformQtConfigureOptions os).
Proof.
  unfold platformQtConfigureOptions.
  destruct (system os =? "Windows"); [conduct |].
  apply behaves_get; cbv beta zeta.
  destruct (system os =? "Darwin") eqn:D; [| conduct].
  apply String.eqb_eq in D.
  destruct (getenv os "OPENSSL" EmptyString =? EmptyString) eqn:V.
  - repeat first [ apply behaves_openssl_search | conduct ].
  - apply String.eqb_neq in V. intros s E.
    unfold bind, exists_, tell, ask, print, ret, raise, read_local. cbn.
    destruct (path_exists os (world s) _); cbn;
      (split4; [apply (T_of_plain T); try assumption; repeat constructor
               | exact E | reflexivity |]); [discriminate |].
    intros e [= <-]. apply Q_UnboundLocalError; assumption.
Qed.

Lemma behaves_configureQtBase_command : behaves T Q o (configureQtBase_command os).
Proof.
  unfold configureQtBase_command. cbv zeta.
  repeat first [ apply behaves_platformQtConfigureOptions | conduct ].
Qed.

Lemma behaves_configureQtBase : behaves T Q o (configureQtBase os).
Proof.
  unfold configureQtBase.
  repeat first [ apply behaves_configureQtBase_command | apply behaves_print | conduct ].
Qed.

Lemma behaves_buildQtBase self : behaves T Q o (buildQtBase os self).
Proof.
  unfold buildQtBase.
  repeat first [ apply behaves_configureQtBase | apply behaves_gitClean | apply behaves_make
               | apply behaves_print | conduct ].
Qed.

Lemma behaves_buildQtWebKit self : behaves T Q o (buildQtWebKit os self).
Proof.
  unfold buildQtWebKit. cbv zeta.
  repeat first [ apply behaves_gitClean | apply behaves_print | conduct ].
  apply behaves_raise; try assumption.
  apply Q_ValueError. eexists. eassumption.
Qed.

Lemma behaves_buildPhantomJS self : behaves T Q o (buildPhantomJS os self).
Proof.
  unfold buildPhantomJS.
  repeat first [ apply behaves_qmake | apply behaves_make | apply behaves_print | conduct ].
Qed.

Lemma behaves_ensureSubmodulesAvailable : behaves T Q o (ensureSubmodulesAvailable os).
Proof. unfold ensureSubmodulesAvailable. repeat conduct. Qed.

Lemma behaves_run self : behaves T Q o (run os self).
Proof.
  unfold run.
  repeat first [ apply behaves_ensureSubmodulesAvailable | apply behaves_buildQtBase
               | apply behaves_buildQtWebKit | apply behaves_buildPhantomJS | conduct ].
Qed.

Lemma behaves_parseArguments : behaves T Q o (@parseArguments W).
Proof. unfold parseArguments. repeat conduct. Qed.

End Conduct.

(** ** Whole runs *)

Section Whole.

Context {W : Type} (os : @Host W).
Implicit Types (s : @State W).

(** [which] raises nothing but [KeyError] for a missing PATH. *)
Lemma which_raises program s e :
  outcome (which os program s) = Raise e ->
  e = KeyError "PATH" /\ environ os "PATH" = None.
Proof.
  unfold which, bind, isExe, ask. cbn.
  destruct (isfile os (world s) program && access_X_OK os (world s) program);
    [discriminate |].
  destruct (environ os "PATH") as [PATH |].
  - destruct (which_loop_returns os program (Py.split (pathsep os) PATH) s) as [r [E _]].
    rewrite E. discriminate.
  - cbn. intros [= <-]. split; reflexivity.
Qed.

(** [__init__] raises nothing but that [KeyError], and only on Windows. *)
Lemma init_raises s e :
  outcome (__init__ os s) = Raise e ->
  e = KeyError "PATH" /\ system os = "Windows" /\ environ os "PATH" = None.
Proof.
  unfold __init__.
  destruct (system os =? "Windows") eqn:Wn.
  - apply String.eqb_eq in Wn.
    unfold bind at 1. unfold bind at 1.
    destruct (which_frame os "jom.exe" s) as [r E].
    pose proof (which_raises "jom.exe" s) as R. rewrite E in *.
    destruct r as [makeExe | e0].
    + unfold bind, ret, ask, modify_options. cbn.
      destruct (isdir os (world s) ".git"); cbn; discriminate.
    + cbn. intros [= <-]. destruct (R e0 eq_refl) as [-> P]. auto.
  - unfold bind, ret, ask, modify_options, get_options. cbn.
    destruct (isdir os (world s) ".git"); cbn; discriminate.
Qed.

Lemma main_unfold : main os = try_except_RuntimeError (main_body os) main_handler.
Proof. reflexivity. Qed.

(** What [main] adds to the body of its [try] statement. *)
Lemma main_outcomes s :
  match outcome (main_body os s) with
  | Raise (RuntimeError msg) =>
      main os s =
        (events (main_body os s) ++ [StderrWrite (error_line msg)],
         final (main_body os s), Raise (SystemExit 1))
  | _ => main os s = main_body os s
  end.
Proof.
  rewrite main_unfold. unfold try_except_RuntimeError.
  destruct (main_body os s) as [[t1 s1] [a | e]]; [reflexivity |].
  destruct e; reflexivity.
Qed.

Variables (I : @State W -> Prop) (T : list Event -> Prop) (Q : Exception -> Prop).
Hypothesis I_frame :
  forall s s', I s -> options s' = options s -> stdin s' = stdin s -> I s'.
Hypothesis I_skip_git : forall s, I s -> I (with_options (set_skip_git true) s).
Hypothesis I_dialog :
  forall s rest, I s -> confirm (options s) = false -> I (mkState (world s) rest (options s)).
Hypothesis T_nil : T [].
Hypothesis T_app : forall a b, T a -> T b -> T (a ++ b).
Hypothesis T_plain : forall e, plain e -> T [e].
Hypothesis T_exec : forall w c, T [Echo w c; Popen c w].
Hypothesis Q_RuntimeError :
  forall msg, In msg (failure_messages os) -> Q (RuntimeError msg).
Hypothesis Q_OSError : forall s, I s -> dry_run (options s) = false -> Q OSError.
Hypothesis Q_UnboundLocalError :
  system os = "Darwin" -> getenv os "OPENSSL" EmptyString <> EmptyString ->
  Q (UnboundLocalError "openssl_found").
Hypothesis Q_ValueError : (exists line, shlex_split os line = None) -> Q ValueError.
Hypothesis Q_KeyError :
  system os = "Windows" -> environ os "PATH" = None -> Q (KeyError "PATH").

Lemma upholds_of_behaves {A} (m : @M W A) :
  (forall s, I s -> behaves T Q (options s) m) -> upholds I T Q m.
Proof.
  intros H s Is. destruct (H s Is s eq_refl) as [Ht [Ho [Hi Hq]]].
  split; [exact Ht | split; [| exact Hq]].
  apply (I_frame s); assumption.
Qed.

(** Sequencing from one state. *)
Lemma upholds_bind_at {A B} (m : @M W A) (k : A -> @M W B) s :
  T (events (m s)) -> I (final (m s)) ->
  (forall e, outcome (m s) = Raise e -> Q e) ->
  (forall a, upholds I T Q (k a)) ->
  T (events (bind m k s)) /\ I (final (bind m k s)) /\
  (forall e, outcome (bind m k s) = Raise e -> Q e).
Proof.
  intros T1 I1 Q1 Hk.
  destruct (m s) as [[t1 s1] [a | e]] eqn:Em; cbn [events final outcome fst snd] in *.
  - rewrite (bind_Return _ _ _ _ _ _ Em). cbn [events final outcome fst snd].
    destruct (Hk a s1 I1) as [T2 [I2 Q2]].
    split; [apply T_app; assumption | split; assumption].
  - rewrite (bind_Raise _ _ _ _ _ _ Em). cbn [events final outcome fst snd].
    split; [exact T1 | split; [exact I1 |]].
    intros e' [= <-]. apply Q1. reflexivity.
Qed.

Lemma upholds_bind {A B} (m : @M W A) (k : A -> @M W B) :
  upholds I T Q m -> (forall a, upholds I T Q (k a)) -> upholds I T Q (bind m k).
Proof.
  intros Hm Hk s Is. destruct (Hm s Is) as [T1 [I1 Q1]].
  apply upholds_bind_at; assumption.
Qed.

Lemma upholds_ret {A} (a : A) : upholds I T Q (@ret W A a).
Proof. intros s Is. split; [exact T_nil | split; [exact Is | discriminate]]. Qed.

Lemma upholds_init : upholds I T Q (__init__ os).
Proof.
  intros s Is. pose proof (init_raises s) as R.
  destruct (init_frame os s) as [r E]. rewrite E in *.
  cbn [events final outcome fst snd] in *.
  split; [exact T_nil | split].
  - destruct r; [| exact Is].
    destruct (isdir os (world s) ".git"); [exact Is | apply I_skip_git; exact Is].
  - intros e ->. destruct (R e eq_refl) as [-> [Hw Hp]]. apply Q_KeyError; assumption.
Qed.

Lemma upholds_run self : upholds I T Q (run os self).
Proof.
  apply upholds_of_behaves. intros s Is.
  apply behaves_run; auto. intros D. apply (Q_OSError s Is D).
Qed.

Lemma upholds_main_body : upholds I T Q (main_body os).
Proof.
  unfold main_body. apply upholds_bind.
  { apply upholds_of_behaves. intros s Is. apply (behaves_parseArguments os); auto. }
  intros _ s Is. rewrite bind_get.
  assert (K : forall go : bool,
            upholds I T Q (if go then bind (__init__ os) (fun builder => run os builder)
                           else ret tt)).
  { intros [|]; [| apply upholds_ret].
    apply upholds_bind; [apply upholds_init | intros builder; apply upholds_run]. }
  destruct (confirm (options s)) eqn:C; cbn [negb].
  - apply upholds_bind_at; [exact T_nil | exact Is | discriminate | exact K].
  - apply upholds_bind_at; [| | | exact K].
    + destruct (keeps_confirmation plain (options s) Logic.I Logic.I Logic.I s eq_refl)
        as [F _].
      unfold bind, print, tell, confirmation in *.
      destruct (confirm_loop (stdin s)) as [[t rest] go]. cbn in *.
      change (T ([Print warning] ++ t)).
      apply T_app; [apply T_plain; exact Logic.I | apply (T_of_plain T); assumption].
    + unfold bind, print, tell, confirmation.
      destruct (confirm_loop (stdin s)) as [[t rest] go]. cbn.
      apply I_dialog; assumption.
    + unfold bind, print, tell, confirmation.
      destruct (confirm_loop (stdin s)) as [[t rest] go]. cbn. discriminate.
Qed.

End Whole.

(** ** The audit trail *)

Lemma audited_app a b : audited a -> audited b -> audited (a ++ b).
Proof.
  induction 1 as [| e t He _ IH | w c t _ IH]; intros Hb; cbn.
  - exact Hb.
  - apply audited_other; [exact He | exact (IH Hb)].
  - apply audited_exec. exact (IH Hb).
Qed.

Lemma audited_Popen t :
  audited t ->
  forall t1 c w t2, t = t1 ++ Popen c w :: t2 -> exists t0, t1 = t0 ++ [Echo w c].
Proof.
  induction 1 as [| e t He _ IH | w0 c0 t _ IH]; intros t1 c w t2 E.
  - destruct t1; discriminate.
  - destruct t1 as [| a t1]; cbn in E.
    + injection E as -> _. contradiction.
    + injection E as -> E. destruct (IH _ _ _ _ E) as [t0 ->].
      exists (a :: t0). reflexivity.
  - destruct t1 as [| a [| b t1]]; cbn in E.
    + discriminate.
    + injection E as E1 E2 E3 _. subst. exists []. reflexivity.
    + injection E as E1 E2 E. subst. destruct (IH _ _ _ _ eq_refl) as [t0 ->].
      exists (Echo w0 c0 :: Popen c0 w0 :: t0). reflexivity.
Qed.

Lemma main_audited {W} (os : @Host W) (s : State) : audited (events (main os s)).
Proof.
  assert (B : upholds (fun _ => True) audited (fun _ => True) (main_body os)).
  { apply upholds_main_body; auto using audited_nil, audited_app.
    - intros e He. apply audited_other; [destruct e; try exact I; contradiction | constructor].
    - intros w c. apply audited_exec. constructor. }
  destruct (B s I) as [Tb _].
  pose proof (main_outcomes os s) as M.
  destruct (outcome (main_body os s)) as [a | e]; [rewrite M; exact Tb |].
  destruct e; try (rewrite M; exact Tb).
  rewrite M. cbn [events fst]. apply audited_app; [exact Tb |].
  apply audited_other; [exact I | constructor].
Qed.

(** X1.  In every run of [main], on every host, a process started by
    [Popen] comes right after the preview ("Executing in ...") of the same
    command in the same working directory. *)
Theorem every_Popen_is_previewed {W} (os : @Host W) (s : State)
    (before after : list Event) (command : list string) (cwd : string) :
  events (main os s) = before ++ Popen command cwd :: after ->
  exists earlier, before = earlier ++ [Echo cwd command].
Proof. intros E. exact (audited_Popen _ (main_audited os s) _ _ _ _ E). Qed.

Lemma every_Popen_is_previewed_witness :
  events (main Scenario.linux_failing (Static.start Static.confirmed))
    = [Echo "/src/phantomjs" ["git"; "submodule"; "init"]]
        ++ Popen ["git"; "submodule"; "init"] "/src/phantomjs"
        :: [StderrWrite (error_line "Initialization of git submodules failed.")] /\
  exists earlier,
    [Echo "/src/phantomjs" ["git"; "submodule"; "init"]]
      = earlier ++ [Echo "/src/phantomjs" ["git"; "submodule"; "init"]].
Proof.
  split; [reflexivity |].
  apply (every_Popen_is_previewed Scenario.linux_failing (Static.start Static.confirmed)
           _ [StderrWrite (error_line "Initialization of git submodules failed.")]).
  reflexivity.
Defined.

(** ** Exceptions and the error line *)

(** X2.  The failed lookups that can leave [main] name their cause: a
    [KeyError] is for PATH, on Windows with no PATH in the environment; an
    [UnboundLocalError] is for [openssl_found], on Darwin with a non-empty
    OPENSSL.  A [RuntimeError] never leaves [main].  Nothing is said of
    [SystemExit], [ValueError] and [OSError]. *)
Theorem lookup_errors_of_main {W} (os : @Host W) (s : State) (e : Exception) :
  outcome (main os s) = Raise e ->
  match e with
  | RuntimeError _ => False
  | KeyError key =>
      key = "PATH" /\ system os = "Windows" /\ environ os "PATH" = None
  | UnboundLocalError name =>
      name = "openssl_found" /\ system os = "Darwin" /\
      getenv os "OPENSSL" EmptyString <> EmptyString
  | SystemExit _ | ValueError | OSError => True
  end.
Proof.
  set (Q := fun e : Exception =>
    match e with
    | KeyError key =>
        key = "PATH" /\ system os = "Windows" /\ environ os "PATH" = None
    | UnboundLocalError name =>
        name = "openssl_found" /\ system os = "Darwin" /\
        getenv os "OPENSSL" EmptyString <> EmptyString
    | _ => True
    end).
  assert (B : upholds (fun _ => True) (fun _ => True) Q (main_body os)).
  { apply upholds_main_body; cbn; auto. }
  destruct (B s I) as [_ [_ Qb]].
  pose proof (main_outcomes os s) as M.
  destruct (outcome (main_body os s)) as [a | e0] eqn:O.
  - rewrite M, O. discriminate.
  - destruct e0; rewrite M; cbn [outcome snd]; try rewrite O; intros [= <-];
      first [ exact (Qb _ eq_refl) | exact I ].
Qed.

Lemma lookup_errors_of_main_witness :
  outcome (main Static.darwin_override (Static.start Static.dry))
    = Raise (UnboundLocalError "openssl_found") /\
  system Static.darwin_override = "Darwin".
Proof.
  split; [reflexivity |].
  apply (lookup_errors_of_main Static.darwin_override (Static.start Static.dry)
           (UnboundLocalError "openssl_found") eq_refl).
Defined.

Lemma failure_messages_are_reachable {W} (os : @Host W) (msg : string) :
  In msg (failure_messages os) -> msg <> unreachable_message.
Proof.
  unfold failure_messages, unreachable_message. cbn [In].
  intros H. repeat (destruct H as [<- | H]; [discriminate |]). destruct H.
Qed.

(** X3.  The script writes to standard error only to report a failure, and
    then as the last thing it does.  When [main] ends with exit code 1 its
    trace ends with the one error line, nothing before it went to standard
    error, and the message reported is not "No OpenSSL specified: OPENSSL
    environment variable not found": that [raise] is never reached.  When
    [main] does not end with [SystemExit], it wrote nothing to standard
    error. *)
Theorem error_line_is_written_last {W} (os : @Host W) (s : State) :
  (outcome (main os s) = Raise (SystemExit 1) ->
   exists before msg,
     events (main os s) = before ++ [StderrWrite (error_line msg)] /\
     msg <> unreachable_message /\
     Forall not_stderr before) /\
  ((forall code, outcome (main os s) <> Raise (SystemExit code)) ->
   Forall not_stderr (events (main os s))).
Proof.
  set (Q := fun e : Exception =>
    match e with
    | SystemExit _ => False
    | RuntimeError msg => msg <> unreachable_message
    | _ => True
    end).
  assert (B : upholds (fun _ => True) (Forall not_stderr) Q (main_body os)).
  { apply upholds_main_body; cbn; auto.
    - intros a b Ha Hb. apply Forall_app. split; assumption.
    - intros e He. repeat constructor. destruct e; try exact I; contradiction.
    - intros w c. repeat constructor.
    - apply failure_messages_are_reachable. }
  destruct (B s I) as [Tb [_ Qb]].
  pose proof (main_outcomes os s) as M.
  destruct (outcome (main_body os s)) as [a | e0] eqn:O.
  - rewrite M, O. split; [discriminate | intros _; exact Tb].
  - destruct e0; rewrite M; cbn [outcome snd events fst]; try rewrite O;
      try (split; [discriminate | intros _; exact Tb]).
    + split.
      * intros _. exists (events (main_body os s)), msg.
        split; [reflexivity | split; [exact (Qb _ eq_refl) | exact Tb]].
      * intros N. destruct (N 1%Z eq_refl).
    + destruct (Qb _ eq_refl).
Qed.

Lemma error_line_is_written_last_witness :
  outcome (main Scenario.linux_failing (Static.start Static.confirmed))
    = Raise (SystemExit 1) /\
  exists before msg,
    events (main Scenario.linux_failing (Static.start Static.confirmed))
      = before ++ [StderrWrite (error_line msg)] /\
    msg <> unreachable_message /\
    Forall not_stderr before.
Proof.
  split; [reflexivity |].
  apply (proj1 (error_line_is_written_last Scenario.linux_failing
                  (Static.start Static.confirmed))).
  reflexivity.
Defined.

(** X4.  With [--confirm], [main] reads nothing from standard input,
    however the run goes. *)
Theorem confirm_leaves_stdin_unread {W} (os : @Host W) (s : State) :
  confirm (options s) = true ->
  stdin (final (main os s)) = stdin s.
Proof.
  intros C.
  assert (B : upholds (fun s' => stdin s' = stdin s /\ confirm (options s') = true)
                (fun _ => True) (fun _ => True) (main_body os)).
  { apply upholds_main_body; cbn; auto.
    - intros s1 s2 [H1 H2] E1 E2. rewrite E1, E2. auto.
    - intros s1 rest [_ H] F. congruence. }
  destruct (B s (conj eq_refl C)) as [_ [[Hs _] _]].
  pose proof (main_outcomes os s) as M.
  destruct (outcome (main_body os s)) as [a | e0]; [rewrite M; exact Hs |].
  destruct e0; rewrite M; exact Hs.
Qed.

Lemma confirm_leaves_stdin_unread_witness :
  confirm (options (mkState tt ["n"] Static.dry)) = true /\
  stdin (final (main Static.linux (mkState tt ["n"] Static.dry))) = ["n"].
Proof.
  split; [reflexivity |].
  apply (confirm_leaves_stdin_unread Static.linux (mkState tt ["n"] Static.dry)).
  reflexivity.
Defined.

(** ** Two runs from end to end *)

Section Scenarios.

Context {W : Type} (os : @Host W).
Implicit Types (s : @State W).

Lemma init_returns s builder :
  outcome (__init__ os s) = Return builder ->
  __init__ os s =
    ([], if isdir os (world s) ".git" then s else with_options (set_skip_git true) s,
     Return builder).
Proof.
  intros H. destruct (init_frame os s) as [r E]. rewrite E in *.
  cbn [outcome snd] in H. subst r. reflexivity.
Qed.

Lemma main_body_confirmed s :
  confirm (options s) = true ->
  debug (options s) && release (options s) = false ->
  main_body os s = bind (__init__ os) (fun builder => run os builder) s.
Proof.
  intros C D. unfold main_body.
  assert (P : @parseArguments W s = ([], s, Return tt)).
  { unfold parseArguments. rewrite bind_get, D. reflexivity. }
  rewrite (bind_Return _ _ _ _ _ _ P), bind_get, C. cbn [negb].
  rewrite (bind_Return (ret true) _ s [] s true eq_refl).
  cbn [events final outcome fst snd app].
  destruct (bind (__init__ os) _ s) as [[t s'] r]. reflexivity.
Qed.

(** The stages of a resumed dry run. *)
Lemma resumed_run s self :
  dry_run (options s) = true ->
  skip_qtbase (options s) = true ->
  skip_qtwebkit (options s) = true ->
  run os self s =
    ((if skip_git (options s) then []
      else [Echo (abspath os ".") ["git"; "submodule"; "init"];
            Echo (abspath os ".") ["git"; "submodule"; "update"]])
     ++ [Print "Skipping build of Qt Base";
         Print "Skipping build of Qt WebKit";
         Print "Configuring PhantomJS, please wait...";
         Echo (abspath os ".")
           (qmakePath os :: Py.elems (qmake_args (options s))
              ++ Py.elems (phantomjs_qmake_args (options s)));
         Print "Building PhantomJS, please wait...";
         Echo (abspath os ".") (map Py.str (makeCommand self))],
     s, Return tt).
Proof.
  destruct s as [w input o]. destruct o. cbn. intros -> -> ->.
  unfold run, ensureSubmodulesAvailable, buildQtBase, buildQtWebKit, buildPhantomJS, qmake,
    make, execute, isExe, bind, get_options, print, tell, ask, ret.
  destruct (isfile os w (qmakePath os) && access_X_OK os w (qmakePath os)) eqn:X;
  destruct skip_git0;
    destruct qmake_args0 as [[| a l] |]; destruct phantomjs_qmake_args0 as [[| b m] |];
    cbn; rewrite ?X; cbn; rewrite ?map_app, ?map_str_Str, ?app_nil_r; reflexivity.
Qed.

End Scenarios.

(** X5.  Resuming with [--skip-qtbase --skip-qtwebkit --dry-run --confirm]:
    the whole run previews the two submodule commands (unless git is
    skipped or there is no [.git]), then qmake with the user's arguments and
    make for PhantomJS, starts nothing, and returns normally. *)
Theorem resumed_dry_run {W} (os : @Host W) (s : State) (builder : PhantomJSBuilder) :
  confirm (options s) = true ->
  debug (options s) && release (options s) = false ->
  dry_run (options s) = true ->
  skip_qtbase (options s) = true ->
  skip_qtwebkit (options s) = true ->
  outcome (__init__ os s) = Return builder ->
  events (main os s) =
    (if skip_git (options s) || negb (isdir os (world s) ".git") then []
     else [Echo (abspath os ".") ["git"; "submodule"; "init"];
           Echo (abspath os ".") ["git"; "submodule"; "update"]])
    ++ [Print "Skipping build of Qt Base";
        Print "Skipping build of Qt WebKit";
        Print "Configuring PhantomJS, please wait...";
        Echo (abspath os ".")
          (qmakePath os :: Py.elems (qmake_args (options s))
             ++ Py.elems (phantomjs_qmake_args (options s)));
        Print "Building PhantomJS, please wait...";
        Echo (abspath os ".") (map Py.str (makeCommand builder))]
  /\ outcome (main os s) = Return tt.
Proof.
  intros C D Y B K N.
  assert (R : main os s =
              run os builder
                (if isdir os (world s) ".git" then s else with_options (set_skip_git true) s)).
  { rewrite main_unfold. unfold try_except_RuntimeError.
    rewrite (main_body_confirmed os s C D).
    rewrite (bind_Return _ _ _ _ _ _ (init_returns os s builder N)).
    rewrite resumed_run;
      [reflexivity | destruct (isdir os (world s) ".git"); assumption ..]. }
  rewrite R, resumed_run; [| destruct (isdir os (world s) ".git"); assumption ..].
  cbn [events outcome fst snd]. split; [| reflexivity].
  destruct (isdir os (world s) ".git"); cbn; [rewrite orb_false_r | rewrite orb_true_r];
    reflexivity.
Qed.

Lemma resumed_dry_run_witness :
  events (main Static.linux (Static.start Scenario.resume_dry)) =
    [Echo "/src/phantomjs" ["git"; "submodule"; "init"];
     Echo "/src/phantomjs" ["git"; "submodule"; "update"];
     Print "Skipping build of Qt Base";
     Print "Skipping build of Qt WebKit";
     Print "Configuring PhantomJS, please wait...";
     Echo "/src/phantomjs" ["/src/phantomjs/src/qt/qtbase/bin/qmake"; "CONFIG+=static"];
     Print "Building PhantomJS, please wait...";
     Echo "/src/phantomjs" ["make"; "-j"; "8"]]
  /\ outcome (main Static.linux (Static.start Scenario.resume_dry)) = Return tt.
Proof.
  apply (resumed_dry_run Static.linux (Static.start Scenario.resume_dry)
           (mkBuilder [Py.Str "make"; Py.Str "-j"; Py.Int 8]));
    reflexivity.
Defined.

(** X6.  A failing first stage stops everything: in a confirmed real run
    with git in use, if [git submodule init] returns a code other than
    zero, the run consists of the preview and the start of that command and
    of the error line; no other command is previewed or started, and the
    process exits with status 1. *)
Theorem failed_submodule_init_stops_the_run {W} (os : @Host W) (s : State)
    (builder : PhantomJSBuilder) (w : W) (returncode : Z) :
  confirm (options s) = true ->
  debug (options s) && release (options s) = false ->
  dry_run (options s) = false ->
  skip_git (options s) = false ->
  isdir os (world s) ".git" = true ->
  outcome (__init__ os s) = Return builder ->
  popen_wait os ["git"; "submodule"; "init"] (abspath os ".") (world s)
    = (w, Some returncode) ->
  returncode <> 0%Z ->
  main os s =
    ([Echo (abspath os ".") ["git"; "submodule"; "init"];
      Popen ["git"; "submodule"; "init"] (abspath os ".");
      StderrWrite (error_line "Initialization of git submodules failed.")],
     mkState w (stdin s) (options s),
     Raise (SystemExit 1)).
Proof.
  intros C D Y G Dir N P Z0.
  rewrite main_unfold. unfold try_except_RuntimeError.
  rewrite (main_body_confirmed os s C D).
  rewrite (bind_Return _ _ _ _ _ _ (init_returns os s builder N)), Dir.
  unfold run, ensureSubmodulesAvailable, execute, bind, get_options, tell, Popen_wait.
  cbn. rewrite G, Y, P. cbn. apply Z.eqb_neq in Z0. rewrite Z0. reflexivity.
Qed.

Lemma failed_submodule_init_witness :
  main Scenario.linux_failing (Static.start Static.confirmed) =
    ([Echo "/src/phantomjs" ["git"; "submodule"; "init"];
      Popen ["git"; "submodule"; "init"] "/src/phantomjs";
      StderrWrite (error_line "Initialization of git submodules failed.")],
     Static.start Static.confirmed,
     Raise (SystemExit 1)).
Proof.
  apply (failed_submodule_init_stops_the_run Scenario.linux_failing
           (Static.start Static.confirmed)
           (mkBuilder [Py.Str "make"; Py.Str "-j"; Py.Int 8]) tt 1);
    first [ reflexivity | discriminate ].
Defined.

(** ** Looking up jom and the make command on Windows *)

Lemma which_loop_finds {W} (os : @Host W) program paths (s : State) :
  which_loop os program paths s =
    ([], s,
     Return (option_map (fun path => path_join os path program)
               (find (fun path =>
                        isfile os (world s) (path_join os path program)
                        && access_X_OK os (world s) (path_join os path program))
                  paths))).
Proof.
  induction paths as [| path rest IH]; cbn [which_loop find]; [reflexivity |].
  unfold bind, isExe, ask.
  destruct (isfile os (world s) (path_join os path program)
            && access_X_OK os (world s) (path_join os path program)); [reflexivity |].
  rewrite IH. reflexivity.
Qed.

(** X7.  [which] returns the program itself when it is an executable
    file, whatever PATH is; otherwise, with PATH set, it returns the join of
    the program with the first entry of PATH, in the order of PATH, under
    which the program is an executable file, and "not found" when there is
    no such entry. *)
Theorem which_returns_the_first_match {W} (os : @Host W) (program : string) (s : State) :
  (isfile os (world s) program && access_X_OK os (world s) program = true ->
   outcome (which os program s) = Return (Some program)) /\
  (forall PATH,
     isfile os (world s) program && access_X_OK os (world s) program = false ->
     environ os "PATH" = Some PATH ->
     outcome (which os program s) =
       Return (option_map (fun path => path_join os path program)
                 (find (fun path =>
                          isfile os (world s) (path_join os path program)
                          && access_X_OK os (world s) (path_join os path program))
                    (Py.split (pathsep os) PATH)))).
Proof.
  split.
  - intros E. unfold which, bind, isExe, ask. rewrite E. reflexivity.
  - intros PATH E P. unfold which, bind, isExe, ask. rewrite E, P.
    rewrite which_loop_finds. reflexivity.
Qed.

Lemma which_returns_the_first_match_witness :
  environ Scenario.windows_jom "PATH" = Some "C:/Windows;C:/jom" /\
  outcome (which Scenario.windows_jom "jom.exe" (Static.start Static.no_arguments))
    = Return (Some "C:/jom/jom.exe").
Proof.
  split; [reflexivity |].
  destruct (which_returns_the_first_match Scenario.windows_jom "jom.exe"
              (Static.start Static.no_arguments)) as [_ F].
  rewrite (F "C:/Windows;C:/jom" eq_refl eq_refl). reflexivity.
Defined.

Lemma which_result_is_executable {W} (os : @Host W) program (s : State) found :
  outcome (which os program s) = Return (Some found) ->
  isfile os (world s) found && access_X_OK os (world s) found = true.
Proof.
  unfold which, bind, isExe, ask. cbn.
  destruct (isfile os (world s) program && access_X_OK os (world s) program) eqn:E.
  - cbn. intros [= <-]. exact E.
  - destruct (environ os "PATH") as [PATH |]; [| discriminate].
    destruct (which_loop_returns os program (Py.split (pathsep os) PATH) s) as [r [E1 E2]].
    rewrite E1. cbn. intros [= ->]. apply E2. reflexivity.
Qed.

(** X8.  On Windows the make command has two elements whatever [--jobs]
    and MAKEFLAGS are: a program, which is [nmake] or an executable file
    (jom.exe as found by [which]), and [/NOLOGO]. *)
Theorem make_command_on_windows {W} (os : @Host W) (s : State) (builder : PhantomJSBuilder) :
  system os = "Windows" ->
  outcome (__init__ os s) = Return builder ->
  exists makeExe,
    makeCommand builder = [Py.Str makeExe; Py.Str "/NOLOGO"] /\
    (makeExe = "nmake" \/
     isfile os (world s) makeExe && access_X_OK os (world s) makeExe = true).
Proof.
  intros Wn. unfold __init__. rewrite Wn. cbn [String.eqb Ascii.eqb Bool.eqb].
  unfold bind at 1. unfold bind at 1.
  pose proof (which_result_is_executable os "jom.exe" s) as X.
  destruct (which_frame os "jom.exe" s) as [r E]. rewrite E in *.
  destruct r as [found | e]; [| discriminate].
  unfold bind, ret, ask, modify_options. cbn.
  destruct (isdir os (world s) ".git"); cbn; intros [= <-]; cbn [makeCommand];
    (eexists; split; [reflexivity |]);
    (destruct found as [[| c p] |]; [left; reflexivity | right; apply X; reflexivity
                                     | left; reflexivity]).
Qed.

Lemma make_command_on_windows_witness :
  system Scenario.windows_jom = "Windows" /\
  outcome (__init__ Scenario.windows_jom (Static.start Static.three_jobs))
    = Return (mkBuilder [Py.Str "C:/jom/jom.exe"; Py.Str "/NOLOGO"]) /\
  exists makeExe,
    [Py.Str "C:/jom/jom.exe"; Py.Str "/NOLOGO"] = [Py.Str makeExe; Py.Str "/NOLOGO"] /\
    (makeExe = "nmake" \/
     isfile Scenario.windows_jom tt makeExe && access_X_OK Scenario.windows_jom tt makeExe
       = true).
Proof.
  do 2 (split; [reflexivity |]).
  apply (make_command_on_windows Scenario.windows_jom (Static.start Static.three_jobs)
           (mkBuilder [Py.Str "C:/jom/jom.exe"; Py.Str "/NOLOGO"]));
    reflexivity.
Defined.

(** ** The configure command off Darwin *)

(** X9.  On every platform but Darwin the configure command of the base
    layer is always built, without an event and without touching the state:
    it starts with the configure script ([configure.bat] on Windows), ends
    with [-debug] when [debug] is set and with [-release] otherwise, and
    asks for a linked OpenSSL. *)
Theorem configure_command_off_darwin {W} (os : @Host W) (s : State) :
  system os <> "Darwin" ->
  exists configure,
    configureQtBase_command os s = ([], s, Return configure) /\
    hd EmptyString configure =
      (if system os =? "Windows" then (abspath os "src/qt/qtbase/configure" ++ ".bat")%string
       else abspath os "src/qt/qtbase/configure") /\
    last configure EmptyString = mode_flag (options s) /\
    In "-openssl" configure /\ In "-openssl-linked" configure.
Proof.
  intros ND. apply String.eqb_neq in ND.
  unfold configureQtBase_command, platformQtConfigureOptions, mode_flag. rewrite ND.
  unfold bind, get_options, ret. cbn.
  destruct (system os =? "Windows"); cbn;
    destruct (silent (options s)); cbn;
    destruct (Py.truthy_list (qt_config (options s)));
    destruct (debug (options s)); destruct (release (options s));
    (eexists; split; [reflexivity |]);
    (split; [reflexivity |]);
    (split; [apply last_last |]);
    (split; cbn; repeat first [ left; reflexivity | right ]).
Qed.

Lemma configure_command_off_darwin_witness :
  system Static.linux <> "Darwin" /\
  exists configure,
    configureQtBase_command Static.linux (Static.start Static.confirmed)
      = ([], Static.start Static.confirmed, Return configure) /\
    last configure EmptyString = "-release".
Proof.
  split; [discriminate |].
  destruct (configure_command_off_darwin Static.linux (Static.start Static.confirmed))
    as [configure [E [_ [L _]]]]; [discriminate |].
  exists configure. split; [exact E | exact L].
Defined.

(** ** A source tree without .git *)

(** X10.  When there is no [.git] directory, the builder that [__init__]
    returns works on options with [skip_git] set, whatever [--skip-git]
    was: from then on neither the submodule stage nor any [gitClean], even
    one asked for with [--git-clean-qtbase] or [--git-clean-qtwebkit], emits
    anything, and both return normally. *)
Theorem no_git_directory_no_git_command {W} (os : @Host W) (s : State)
    (builder : PhantomJSBuilder) :
  isdir os (world s) ".git" = false ->
  outcome (__init__ os s) = Return builder ->
  skip_git (options (final (__init__ os s))) = true /\
  forall s',
    options s' = options (final (__init__ os s)) ->
    ensureSubmodulesAvailable os s' = ([], s', Return tt) /\
    forall path, gitClean os path s' = ([], s', Return 0%Z).
Proof.
  intros D N. rewrite (init_returns os s builder N), D. cbn [final fst snd].
  split; [reflexivity |].
  intros s' E.
  unfold ensureSubmodulesAvailable, gitClean. split; [| intros path];
    rewrite bind_get, E; reflexivity.
Qed.

Lemma no_git_directory_witness :
  isdir Static.linux_tarball tt ".git" = false /\
  skip_git Scenario.tarball_git_clean = false /\
  gitClean Static.linux_tarball "src/qt/qtbase"
    (final (__init__ Static.linux_tarball (Static.start Scenario.tarball_git_clean)))
  = ([], final (__init__ Static.linux_tarball (Static.start Scenario.tarball_git_clean)),
     Return 0%Z).
Proof.
  do 2 (split; [reflexivity |]).
  destruct (no_git_directory_no_git_command Static.linux_tarball
              (Static.start Scenario.tarball_git_clean)
              (mkBuilder [Py.Str "make"; Py.Str "-j"; Py.Int 8]) eq_refl eq_refl) as [_ G].
  apply (G _ eq_refl).
Defined.

(** ** The confirmation dialogue *)

Lemma confirm_loop_invalid line rest :
  decisive line = false ->
  confirm_loop (line :: rest) =
    (ask_to_continue :: Print "Invalid answer, try again." :: fst (fst (confirm_loop rest)),
     snd (fst (confirm_loop rest)), snd (confirm_loop rest)).
Proof.
  unfold decisive, answer. intros D. cbn [confirm_loop].
  apply orb_false_elim in D as [D1 D2]. rewrite D1, D2.
  destruct (confirm_loop rest) as [[t r] go]. reflexivity.
Qed.

(** X11.  The dialogue of [main] goes through the lines of standard input
    up to the first one whose answer (stripped, lower case) is "n", "y" or
    empty: it prompts once for every line read, complains about every line
    before that one, leaves the lines after it unread, and goes on unless the
    answer is "n".  When no line is decisive it reads them all, prompts once
    more, and goes on at the end of the input. *)
Theorem dialogue_stops_at_the_first_decisive_answer (invalid : list string) :
  forallb (fun line => negb (decisive line)) invalid = true ->
  (forall line rest,
     decisive line = true ->
     confirm_loop (invalid ++ line :: rest) =
       (flat_map (fun _ => [ask_to_continue; Print "Invalid answer, try again."]) invalid
          ++ ask_to_continue
          :: (if answer line =? "n" then [Print "Cancelling PhantomJS build."] else []),
        rest,
        negb (answer line =? "n"))) /\
  confirm_loop invalid =
    (flat_map (fun _ => [ask_to_continue; Print "Invalid answer, try again."]) invalid
       ++ [ask_to_continue],
     [], true).
Proof.
  induction invalid as [| first others IH]; intros F.
  - split; [| reflexivity].
    intros line rest D. cbn [app flat_map confirm_loop]. fold (answer line).
    destruct (answer line =? "n") eqn:N; [reflexivity |].
    unfold decisive in D. rewrite N in D. cbn [orb] in D. rewrite D. reflexivity.
  - cbn [forallb] in F. apply andb_prop in F as [F1 F2].
    apply negb_true_iff in F1. destruct (IH F2) as [IH1 IH2].
    split.
    + intros line rest D. cbn [app]. rewrite (confirm_loop_invalid _ _ F1), (IH1 line rest D).
      reflexivity.
    + rewrite (confirm_loop_invalid _ _ F1), IH2. reflexivity.
Qed.

Lemma dialogue_witness :
  forallb (fun line => negb (decisive line)) [("maybe" ++ Py.nl)%string] = true /\
  decisive (String "031" " N" ++ Py.nl) = true /\
  confirm_loop (stdin Scenario.refusing) =
    ([ask_to_continue; Print "Invalid answer, try again.";
      ask_to_continue; Print "Cancelling PhantomJS build."],
     [("y" ++ Py.nl)%string], false).
Proof.
  do 2 (split; [reflexivity |]).
  destruct (dialogue_stops_at_the_first_decisive_answer [("maybe" ++ Py.nl)%string] eq_refl)
    as [D _].
  apply (D (String "031" " N" ++ Py.nl)%string [("y" ++ Py.nl)%string] eq_refl).
Defined.

(** X12.  A refused build does nothing: without [--confirm], when the
    dialogue ends on "n", [main] prints the warning and the dialogue and
    returns normally; it previews and starts no command, and leaves the
    world and the options object as they were. *)
Theorem refused_build_does_nothing {W} (os : @Host W) (s : State) :
  confirm (options s) = false ->
  debug (options s) && release (options s) = false ->
  snd (confirm_loop (stdin s)) = false ->
  main os s =
    (Print warning :: fst (fst (confirm_loop (stdin s))),
     mkState (world s) (snd (fst (confirm_loop (stdin s)))) (options s),
     Return tt)
  /\ filter is_invocation (events (main os s)) = [].
Proof.
  intros C D G.
  assert (E : main os s =
    (Print warning :: fst (fst (confirm_loop (stdin s))),
     mkState (world s) (snd (fst (confirm_loop (stdin s)))) (options s),
     Return tt)).
  { rewrite main_unfold. unfold try_except_RuntimeError, main_body.
    assert (P : @parseArguments W s = ([], s, Return tt)).
    { unfold parseArguments. rewrite bind_get, D. reflexivity. }
    rewrite (bind_Return _ _ _ _ _ _ P), bind_get, C. cbn [negb].
    unfold bind, print, tell, confirmation, ret.
    destruct (confirm_loop (stdin s)) as [[t rest] go]. cbn in G. subst go.
    cbn. rewrite app_nil_r. reflexivity. }
  split; [exact E |].
  rewrite E. cbn [events fst filter is_invocation is_echo is_spawn orb].
  destruct (keeps_confirmation (fun e => is_invocation e = false) (options s)
              eq_refl eq_refl eq_refl s eq_refl) as [F _].
  unfold confirmation in F. clear E G.
  destruct (confirm_loop (stdin s)) as [[t rest] go]. cbn [events fst] in *.
  induction F as [| e t He _ IH]; [reflexivity |].
  cbn [filter]. rewrite He. exact IH.
Qed.

Lemma refused_build_witness :
  confirm (options Scenario.refusing) = false /\
  snd (confirm_loop (stdin Scenario.refusing)) = false /\
  outcome (main Static.linux Scenario.refusing) = Return tt /\
  filter is_invocation (events (main Static.linux Scenario.refusing)) = [].
Proof.
  do 2 (split; [reflexivity |]).
  destruct (refused_build_does_nothing Static.linux Scenario.refusing eq_refl eq_refl eq_refl)
    as [E F].
  split; [rewrite E; reflexivity | exact F].
Defined.

(** ** The tokens of --qt-config *)

Lemma split_not_nil c text : Py.split c text <> [].
Proof.
  destruct text as [| d r]; cbn; [discriminate |].
  destruct (Ascii.eqb d c); [discriminate |].
  destruct (Py.split c r); discriminate.
Qed.

Lemma concat_cons sep (x y : string) l :
  String.concat sep (x :: y :: l) = (x ++ sep ++ String.concat sep (y :: l))%string.
Proof. reflexivity. Qed.

Lemma join_split c text : Py.join (String c EmptyString) (Py.split c text) = text.
Proof.
  unfold Py.join. induction text as [| d r IH]; cbn [Py.split]; [reflexivity |].
  pose proof (split_not_nil c r) as N.
  destruct (Ascii.eqb d c) eqn:E.
  - apply Ascii.eqb_eq in E. subst d.
    destruct (Py.split c r) as [| w ws]; [contradiction |].
    rewrite concat_cons, IH. reflexivity.
  - destruct (Py.split c r) as [| w ws]; [contradiction |].
    destruct ws as [| w' ws].
    + cbn in *. rewrite IH. reflexivity.
    + rewrite concat_cons in *. rewrite <- IH. reflexivity.
Qed.

Lemma split_tokens_free c text :
  Forall (fun token => free_of c token = true) (Py.split c text).
Proof.
  induction text as [| d r IH]; cbn [Py.split].
  - repeat constructor.
  - destruct (Ascii.eqb d c) eqn:E.
    + constructor; [reflexivity | exact IH].
    + destruct (Py.split c r) as [| w ws]; [repeat constructor; cbn; rewrite E; reflexivity |].
      inversion IH as [| ? ? Hw Hws]; subst.
      constructor; [cbn; rewrite E, Hw; reflexivity | exact Hws].
Qed.

(** X13.  The values given with [--qt-config] are glued together and cut
    at every space: no token that reaches the configure command contains a
    space, and the tokens, joined by single spaces as the preview prints
    them, spell the glued values character for character (so two spaces in a
    row give an empty argument, and no argument can contain a space). *)
Theorem qt_config_tokens_spell_the_values (o : Options) :
  Py.truthy_list (qt_config o) = true ->
  Py.join " " (qt_config_tokens o) = Py.join EmptyString (Py.elems (qt_config o)) /\
  Forall (fun token => free_of " " token = true) (qt_config_tokens o).
Proof.
  intros H. unfold qt_config_tokens. rewrite H.
  split; [apply join_split | apply split_tokens_free].
Qed.

Lemma qt_config_tokens_witness :
  Py.truthy_list (qt_config Static.two_qt_config) = true /\
  Py.join " " (qt_config_tokens Static.two_qt_config) = "-foo-bar".
Proof.
  split; [reflexivity |].
  apply (qt_config_tokens_spell_the_values Static.two_qt_config). reflexivity.
Defined.

(** ** The pattern tried on MAKEFLAGS *)

Section Regex.

Local Open Scope string_scope.

Lemma append_nil_r (s : string) : s ++ EmptyString = s.
Proof. induction s as [| c s IH]; cbn; [reflexivity | rewrite IH; reflexivity]. Qed.

Lemma append_assoc (a b c : string) : (a ++ b) ++ c = a ++ b ++ c.
Proof. induction a as [| x a IH]; cbn; [reflexivity | rewrite IH; reflexivity]. Qed.

Lemma append_empty (a b : string) : a ++ b = EmptyString -> a = EmptyString /\ b = EmptyString.
Proof. destruct a; cbn; [auto | discriminate]. Qed.

Lemma nullable_denotes r : Re.nullable r = true <-> denotes r EmptyString.
Proof.
  split.
  - induction r; cbn; intros H; try discriminate.
    + constructor.
    + apply andb_prop in H as [H1 H2].
      change EmptyString with (EmptyString ++ EmptyString). constructor; auto.
    + apply orb_prop in H as [H | H]; [apply denotes_Alt_left | apply denotes_Alt_right]; auto.
    + constructor.
  - intros H. remember EmptyString as s eqn:E. induction H; cbn; try reflexivity; try discriminate.
    + apply append_empty in E as [-> ->]. rewrite IHdenotes1, IHdenotes2; reflexivity.
    + rewrite IHdenotes; [reflexivity | exact E].
    + rewrite IHdenotes; [apply orb_true_r | exact E].
Qed.

Lemma denotes_Seq_inv r1 r2 s :
  denotes (Re.Seq r1 r2) s ->
  exists s1 s2, s = s1 ++ s2 /\ denotes r1 s1 /\ denotes r2 s2.
Proof. intros H. inversion H; subst. eauto. Qed.

(** A non-empty match of a star starts with a non-empty match of its body. *)
Lemma denotes_Star_inv r c s :
  denotes (Re.Star r) (String c s) ->
  exists s1 s2, s = s1 ++ s2 /\ denotes r (String c s1) /\ denotes (Re.Star r) s2.
Proof.
  intros H. remember (Re.Star r) as r' eqn:R. remember (String c s) as s' eqn:S.
  revert S. induction H; intros S; try discriminate.
  injection R as ->.
  destruct s1 as [| c1 s1]; cbn in S.
  - apply IHdenotes2; [reflexivity | exact S].
  - injection S as -> <-. exists s1, s2. auto.
Qed.

Lemma deriv_denotes r : forall c s, denotes (Re.deriv c r) s <-> denotes r (String c s).
Proof.
  induction r as [| | p | r1 IH1 r2 IH2 | r1 IH1 r2 IH2 | r IH]; intros c s; cbn [Re.deriv].
  - split; intros H; inversion H.
  - split; intros H; inversion H.
  - destruct (p c) eqn:P; split; intros H; inversion H; subst.
    + constructor. exact P.
    + constructor.
    + congruence.
  - assert (L : denotes (Re.Seq (Re.deriv c r1) r2) s -> denotes (Re.Seq r1 r2) (String c s)).
    { intros H. apply denotes_Seq_inv in H as [s1 [s2 [-> [H1 H2]]]].
      change (String c (s1 ++ s2)) with (String c s1 ++ s2).
      constructor; [apply IH1 |]; assumption. }
    assert (R : denotes (Re.Seq r1 r2) (String c s) ->
                denotes (Re.Seq (Re.deriv c r1) r2) s \/
                (Re.nullable r1 = true /\ denotes (Re.deriv c r2) s)).
    { intros H. apply denotes_Seq_inv in H as [s1 [s2 [E [H1 H2]]]].
      destruct s1 as [| c1 s1]; cbn in E.
      - right. subst s2. split; [apply nullable_denotes | apply IH2]; assumption.
      - injection E as -> ->. left. constructor; [apply IH1 |]; assumption. }
    destruct (Re.nullable r1) eqn:N; split; intros H.
    + inversion H; subst; [apply L; assumption |].
      change (String c s) with (EmptyString ++ String c s).
      constructor; [apply nullable_denotes; exact N | apply IH2; assumption].
    + destruct (R H) as [H' | [_ H']];
        [apply denotes_Alt_left | apply denotes_Alt_right]; assumption.
    + apply L; assumption.
    + destruct (R H) as [H' | [N' _]]; [assumption | discriminate].
  - split; intros H; inversion H; subst;
      first [ apply denotes_Alt_left; apply IH1; assumption
            | apply denotes_Alt_right; apply IH2; assumption ].
  - split; intros H.
    + apply denotes_Seq_inv in H as [s1 [s2 [-> [H1 H2]]]].
      change (String c (s1 ++ s2)) with (String c s1 ++ s2).
      apply denotes_Star_more; [apply IH |]; assumption.
    + destruct (denotes_Star_inv r c s H) as [s1 [s2 [-> [H1 H2]]]].
      constructor; [apply IH |]; assumption.
Qed.

(** [Re.matches]: some prefix of the string is matched from end to end. *)
Lemma matches_denotes s : forall r,
  Re.matches r s = true <-> exists prefix rest, s = prefix ++ rest /\ denotes r prefix.
Proof.
  induction s as [| c s IH]; intros r; cbn [Re.matches].
  - rewrite orb_false_r, nullable_denotes. split.
    + intros H. exists EmptyString, EmptyString. auto.
    + intros [prefix [rest [E H]]]. symmetry in E.
      apply append_empty in E as [-> _]. exact H.
  - split.
    + intros H. apply orb_prop in H as [H | H].
      * exists EmptyString, (String c s). split; [reflexivity | apply nullable_denotes; exact H].
      * apply IH in H as [prefix [rest [-> H]]].
        exists (String c prefix), rest. split; [reflexivity | apply deriv_denotes; exact H].
    + intros [prefix [rest [E H]]]. destruct prefix as [| c' prefix]; cbn in E.
      * apply nullable_denotes in H. rewrite H. reflexivity.
      * injection E as <- ->. apply orb_true_iff. right. apply IH.
        exists prefix, rest. split; [reflexivity | apply deriv_denotes; exact H].
Qed.

Lemma denotes_Cls_inv p s :
  denotes (Re.Cls p) s -> exists c, s = String c EmptyString /\ p c = true.
Proof. intros H. inversion H; subst. eauto. Qed.

Lemma denotes_Star_Cls p s : denotes (Re.Star (Re.Cls p)) s <-> every p s = true.
Proof.
  split.
  - intros H. remember (Re.Star (Re.Cls p)) as r eqn:R.
    induction H; try discriminate; [reflexivity |].
    injection R as ->. apply denotes_Cls_inv in H as [c [-> P]].
    cbn. rewrite P. apply IHdenotes2. reflexivity.
  - induction s as [| c s IH]; cbn; intros H; [constructor |].
    apply andb_prop in H as [P H].
    change (String c s) with (String c EmptyString ++ s).
    constructor; [constructor; exact P | apply IH; exact H].
Qed.

(** What the pattern [-j\s*[0-9]+] matches from end to end. *)
Lemma denotes_jobs_pattern s :
  denotes Re.jobs_pattern s <->
  exists spaces digits,
    s = "-j" ++ spaces ++ digits /\
    every Py.isspace spaces = true /\ every Py.isdigit digits = true /\ digits <> EmptyString.
Proof.
  unfold Re.jobs_pattern, Re.Chr, Re.Plus. split.
  - intros H.
    apply denotes_Seq_inv in H as [a [s1 [-> [Ha H]]]].
    apply denotes_Seq_inv in H as [b [s2 [-> [Hb H]]]].
    apply denotes_Seq_inv in H as [spaces [s3 [-> [Hs H]]]].
    apply denotes_Seq_inv in H as [d [ds [-> [Hd Hds]]]].
    apply denotes_Cls_inv in Ha as [ca [-> Ea]]. apply Ascii.eqb_eq in Ea. subst ca.
    apply denotes_Cls_inv in Hb as [cb [-> Eb]]. apply Ascii.eqb_eq in Eb. subst cb.
    apply denotes_Cls_inv in Hd as [cd [-> Ed]].
    apply denotes_Star_Cls in Hs. apply denotes_Star_Cls in Hds.
    exists spaces, (String cd ds). cbn.
    split; [reflexivity | split; [exact Hs | split; [| discriminate]]].
    rewrite Ed, Hds. reflexivity.
  - intros [spaces [digits [-> [Hs [Hd N]]]]].
    destruct digits as [| d ds]; [contradiction |].
    cbn in Hd. apply andb_prop in Hd as [Hd Hds].
    change ("-j" ++ spaces ++ String d ds)
      with (String "-" EmptyString ++ String "j" EmptyString ++ spaces ++ String d EmptyString ++ ds).
    repeat constructor; try exact Hd; apply denotes_Star_Cls; assumption.
Qed.

(** [re.match("-j\s*[0-9]+", text)] succeeds exactly on the texts that
    start with [-j], then white space, then at least one digit. *)
Lemma matches_jobs_pattern text :
  Re.matches Re.jobs_pattern text = true <->
  exists spaces digits rest,
    text = "-j" ++ spaces ++ digits ++ rest /\
    every Py.isspace spaces = true /\ every Py.isdigit digits = true /\ digits <> EmptyString.
Proof.
  rewrite matches_denotes. split.
  - intros [prefix [rest [-> H]]].
    apply denotes_jobs_pattern in H as [spaces [digits [-> H]]].
    exists spaces, digits, rest. split; [| exact H].
    cbn. rewrite append_assoc. reflexivity.
  - intros [spaces [digits [rest [-> H]]]].
    exists ("-j" ++ spaces ++ digits), rest. split.
    + cbn. rewrite append_assoc. reflexivity.
    + apply denotes_jobs_pattern. exists spaces, digits. split; [reflexivity | exact H].
Qed.

End Regex.

(** X14.  Off Windows and without a job count, the make command is plain
    [make] exactly when the inherited MAKEFLAGS starts with [-j], then any
    white space (that of [\s]), then at least one digit; in every other
    case (MAKEFLAGS unset, or with its [-j N] anywhere but at the very
    start) the command is [make -j CPUS]. *)
Theorem default_job_count_looks_at_the_start_of_MAKEFLAGS {W} (os : @Host W) (s : State)
    (builder : PhantomJSBuilder) :
  system os <> "Windows" ->
  Py.truthy_int (jobs (options s)) = false ->
  outcome (__init__ os s) = Return builder ->
  (makeCommand builder = [Py.Str "make"] <->
   exists spaces digits rest,
     getenv os "MAKEFLAGS" EmptyString = ("-j" ++ spaces ++ digits ++ rest)%string /\
     every Py.isspace spaces = true /\ every Py.isdigit digits = true /\
     digits <> EmptyString) /\
  (makeCommand builder = [Py.Str "make"] \/
   makeCommand builder = [Py.Str "make"; Py.Str "-j"; Py.Int (cpu_count os)]).
Proof.
  intros NW J. apply String.eqb_neq in NW.
  rewrite <- matches_jobs_pattern.
  unfold __init__. rewrite NW.
  unfold bind, ret, ask, modify_options, get_options, outcome. cbn. rewrite J.
  destruct (Re.matches Re.jobs_pattern (getenv os "MAKEFLAGS" EmptyString));
    destruct (isdir os (world s) ".git"); cbn; intros [= <-]; cbn;
    (split; [split; [try reflexivity; discriminate | try reflexivity; discriminate] |]);
    auto.
Qed.

Lemma default_job_count_witness :
  system Scenario.linux_separator <> "Windows" /\
  Py.truthy_int (jobs (options (Static.start Static.zero_jobs))) = false /\
  outcome (__init__ Scenario.linux_separator (Static.start Static.zero_jobs))
    = Return (mkBuilder [Py.Str "make"]) /\
  exists spaces digits rest,
    getenv Scenario.linux_separator "MAKEFLAGS" EmptyString
      = ("-j" ++ spaces ++ digits ++ rest)%string /\
    every Py.isspace spaces = true /\ every Py.isdigit digits = true /\
    digits <> EmptyString.
Proof.
  split; [discriminate | split; [reflexivity | split; [reflexivity |]]].
  destruct (default_job_count_looks_at_the_start_of_MAKEFLAGS Scenario.linux_separator
              (Static.start Static.zero_jobs) (mkBuilder [Py.Str "make"]))
    as [[F _] _]; [discriminate | reflexivity | reflexivity |].
  apply F. reflexivity.
Defined.

(** ** Options that are parsed and never read *)

Section Unused.

Context {W : Type} (os : @Host W).
Variables (v : option (list string)) (w : bool).

Lemma unaffected_ret {A} (a : A) : unaffected (set_unused v w) (@ret W A a).
Proof. intros s. reflexivity. Qed.

Lemma unaffected_raise {A} e : unaffected (set_unused v w) (@raise W A e).
Proof. intros s. reflexivity. Qed.

Lemma unaffected_tell e : unaffected (set_unused v w) (@tell W e).
Proof. intros s. reflexivity. Qed.

Lemma unaffected_ask {A} (q : W -> A) : unaffected (set_unused v w) (ask q).
Proof. intros s. reflexivity. Qed.

Lemma unaffected_bind {A B} (m : @M W A) (k : A -> @M W B) :
  unaffected (set_unused v w) m -> (forall a, unaffected (set_unused v w) (k a)) -> unaffected (set_unused v w) (bind m k).
Proof.
  intros Hm Hk s. unfold bind at 1. rewrite (Hm s).
  destruct (m s) as [[t1 s1] [a | e]] eqn:Em; cbn [events final outcome fst snd].
  - rewrite (Hk a s1), (bind_Return _ _ _ _ _ _ Em). reflexivity.
  - rewrite (bind_Raise _ _ _ _ _ _ Em). reflexivity.
Qed.

Lemma unaffected_get {A} (k : Options -> @M W A) :
  (forall o, k (set_unused v w o) = k o) -> (forall o, unaffected (set_unused v w) (k o)) ->
  unaffected (set_unused v w) (bind get_options k).
Proof.
  intros E Hk s. rewrite !bind_get. cbn [with_options options]. rewrite E. apply Hk.
Qed.

Lemma unaffected_Popen_wait command cwd : unaffected (set_unused v w) (Popen_wait os command cwd).
Proof.
  intros s. unfold Popen_wait. cbn [with_options world stdin options].
  destruct (popen_wait os command cwd (world s)) as [w' [rc |]]; reflexivity.
Qed.

Lemma unaffected_shell command : unaffected (set_unused v w) (subprocess_call_shell os command).
Proof. intros s. reflexivity. Qed.

Lemma unaffected_putenv k x : unaffected (set_unused v w) (os_putenv os k x).
Proof. intros s. reflexivity. Qed.

Lemma unaffected_confirmation : unaffected (set_unused v w) (@confirmation W).
Proof.
  intros s. unfold confirmation. cbn [with_options world stdin options].
  destruct (confirm_loop (stdin s)) as [[t rest] go]. reflexivity.
Qed.

Lemma unaffected_skip_git : unaffected (set_unused v w) (@modify_options W (set_skip_git true)).
Proof. intros s. reflexivity. Qed.

Lemma unaffected_try {A} (body : @M W A) (handler : string -> @M W A) :
  unaffected (set_unused v w) body -> (forall msg, unaffected (set_unused v w) (handler msg)) ->
  unaffected (set_unused v w) (try_except_RuntimeError body handler).
Proof.
  intros Hb Hh s. unfold try_except_RuntimeError. rewrite (Hb s).
  destruct (body s) as [[t1 s1] [a | e]]; cbn [events final outcome fst snd];
    [reflexivity |].
  destruct e; try reflexivity.
  rewrite (Hh msg s1). destruct (handler msg s1) as [[t2 s2] r]. reflexivity.
Qed.

Ltac unaffected_step :=
  lazymatch goal with
  | |- unaffected _ (bind get_options _) =>
      apply unaffected_get; [intros ?; reflexivity | intros ?; cbv beta]
  | |- unaffected _ (bind _ _) => apply unaffected_bind; [| intros ?]
  | |- unaffected _ (ret _) => apply unaffected_ret
  | |- unaffected _ (raise _) => apply unaffected_raise
  | |- unaffected _ (tell _) => apply unaffected_tell
  | |- unaffected _ (print _) => apply unaffected_tell
  | |- unaffected _ (ask _) => apply unaffected_ask
  | |- unaffected _ (isExe _ _) => apply unaffected_ask
  | |- unaffected _ (exists_ _ _) => unfold exists_
  | |- unaffected _ (Popen_wait _ _ _) => apply unaffected_Popen_wait
  | |- unaffected _ (subprocess_call_shell _ _) => apply unaffected_shell
  | |- unaffected _ (os_putenv _ _ _) => apply unaffected_putenv
  | |- unaffected _ (modify_options _) => apply unaffected_skip_git
  | |- unaffected _ (read_local _ ?x) => destruct x; cbn [read_local]
  | |- unaffected _ (if ?b then _ else _) => destruct b
  | |- unaffected _ (match ?x with _ => _ end) => destruct x
  end.

Lemma unaffected_which_loop program paths : unaffected (set_unused v w) (which_loop os program paths).
Proof.
  induction paths as [| path rest IH]; cbn [which_loop]; repeat first [ apply IH | unaffected_step ].
Qed.

Lemma unaffected_which program : unaffected (set_unused v w) (which os program).
Proof. unfold which. repeat first [ apply unaffected_which_loop | unaffected_step ]. Qed.

Lemma unaffected_init : unaffected (set_unused v w) (__init__ os).
Proof. unfold __init__. repeat first [ apply unaffected_which | unaffected_step ]. Qed.

Lemma unaffected_execute command workingDirectory :
  unaffected (set_unused v w) (execute os command workingDirectory).
Proof. unfold execute. repeat unaffected_step. Qed.

Lemma unaffected_gitClean path : unaffected (set_unused v w) (gitClean os path).
Proof. unfold gitClean. repeat first [ apply unaffected_execute | unaffected_step ]. Qed.

Lemma unaffected_qmake path options : unaffected (set_unused v w) (qmake os path options).
Proof. unfold qmake. repeat first [ apply unaffected_execute | unaffected_step ]. Qed.

Lemma unaffected_openssl_search paths : forall found platformOptions,
  unaffected (set_unused v w) (openssl_search os paths found platformOptions).
Proof.
  induction paths as [| search_path rest IH]; intros; cbn [openssl_search];
    repeat first [ apply IH | unaffected_step ].
Qed.

Lemma unaffected_platformQtConfigureOptions : unaffected (set_unused v w) (platformQtConfigureOptions os).
Proof.
  unfold platformQtConfigureOptions.
  repeat first [ apply unaffected_openssl_search | unaffected_step ].
Qed.

Lemma unaffected_configureQtBase : unaffected (set_unused v w) (configureQtBase os).
Proof.
  unfold configureQtBase, configureQtBase_command.
  repeat first [ apply unaffected_platformQtConfigureOptions | apply unaffected_execute
               | unaffected_step ].
Qed.

Lemma unaffected_buildQtBase self : unaffected (set_unused v w) (buildQtBase os self).
Proof.
  unfold buildQtBase, make.
  repeat first [ apply unaffected_configureQtBase | apply unaffected_gitClean
               | apply unaffected_execute | unaffected_step ].
Qed.

Lemma unaffected_buildQtWebKit self : unaffected (set_unused v w) (buildQtWebKit os self).
Proof.
  unfold buildQtWebKit, make.
  repeat first [ apply unaffected_gitClean | apply unaffected_execute | unaffected_step ].
Qed.

Lemma unaffected_buildPhantomJS self : unaffected (set_unused v w) (buildPhantomJS os self).
Proof.
  unfold buildPhantomJS, make.
  repeat first [ apply unaffected_qmake | apply unaffected_execute | unaffected_step ].
Qed.

Lemma unaffected_ensureSubmodulesAvailable : unaffected (set_unused v w) (ensureSubmodulesAvailable os).
Proof.
  unfold ensureSubmodulesAvailable. repeat first [ apply unaffected_execute | unaffected_step ].
Qed.

Lemma unaffected_run self : unaffected (set_unused v w) (run os self).
Proof.
  unfold run.
  repeat first [ apply unaffected_ensureSubmodulesAvailable | apply unaffected_buildQtBase
               | apply unaffected_buildQtWebKit | apply unaffected_buildPhantomJS
               | unaffected_step ].
Qed.

Lemma unaffected_main : unaffected (set_unused v w) (main os).
Proof.
  unfold main, parseArguments. apply unaffected_try.
  - repeat first [ apply unaffected_confirmation | apply unaffected_init | apply unaffected_run
                 | unaffected_step ].
  - intros msg. repeat unaffected_step.
Qed.

End Unused.

(** X15.  Two options are parsed and never read: whatever is given for
    [--webkit-qmake-args] and [--skip-configure-qtwebkit], a run emits the
    same events, ends with the same outcome and leaves the same world and
    standard input as the run without them. *)
Theorem unused_options_change_nothing {W} (os : @Host W) (s : State)
    (v : option (list string)) (w : bool) :
  main os (with_options (set_unused v w) s) =
    (events (main os s), with_options (set_unused v w) (final (main os s)),
     outcome (main os s)).
Proof. apply unaffected_main. Qed.

(** ** Quoting the cmake arguments *)

Section Quoting.

Local Open Scope string_scope.

Lemma replace_app a b x y : Py.replace a b (x ++ y) = Py.replace a b x ++ Py.replace a b y.
Proof.
  induction x as [| c x IH]; cbn; [reflexivity |].
  destruct (Ascii.eqb c a); rewrite IH; [rewrite append_assoc |]; reflexivity.
Qed.




End Quoting.

Section EngineCommand.

Context {W : Type} (os : @Host W).
Implicit Types (s : @State W).




End EngineCommand.



(** ** Dry runs *)

(** X17.  With [--dry-run], no run of [main], on any host, starts a
    process with [Popen]: whatever is started in a dry run is started
    through the shell. *)
Theorem dry_run_starts_nothing_with_Popen {W} (os : @Host W) (s : State)
    (command : list string) (cwd : string) :
  dry_run (options s) = true ->
  ~ In (Popen command cwd) (events (main os s)).
Proof.
  intros D H.
  pose proof (dry_run_never_calls_Popen os s D) as F.
  rewrite Forall_forall in F. exact (F _ H).
Qed.

Lemma dry_run_starts_nothing_with_Popen_witness :
  dry_run (options (Static.start Static.dry)) = true /\
  ~ In (Popen ["git"; "submodule"; "init"] "/src/phantomjs")
      (events (main Static.linux (Static.start Static.dry))).
Proof.
  split; [reflexivity |].
  apply (dry_run_starts_nothing_with_Popen Static.linux (Static.start Static.dry)).
  reflexivity.
Defined.
